(** * AR hand-gesture cube controller: the gesture-to-parameter control loop

    A shallow embedding of [ARCubeController] from
    [AR-Hand-Gesture-3D-Cube.py]: palm openness, hand position, the
    rotation and scale targets, the per-frame role arbitration of
    [process_hands] and the exponential smoothing.

    Modelling decisions.
    - Numbers.  The program computes with Python floats.  Every function
      is written once over an interface [PyNum] of the arithmetic the
      source uses ([+], [-], [*], [/], [np.sqrt], [<]).  The interface has
      two instances: binary64 machine floats, the arithmetic the program
      runs on, and the real numbers [R] (exact arithmetic, no rounding).
      What is proved for every instance holds of the running code bit for
      bit; what is proved over [R] only is marked so, and where rounding
      makes binary64 differ the difference is shown on a concrete run.
    - Exceptions.  Indexing past the end of a sequence raises
      [IndexError]; functions that index return a [result].  [dx**2] is
      written [dx * dx]: Python's float power raises [OverflowError] where
      the product overflows to infinity (a difference beyond 1.3e154, which
      no normalized landmark has); the model leaves that fault out, and no
      statement below depends on its absence unless it says so.
    - The detector.  [self.hands.process] is an external collaborator;
      [process_hands] takes its output ([SolutionOutputs]) as argument in
      place of the camera frame.  Drawing calls and the returned image are
      left out; the mutated controller is the result.  Among them is
      [self.mp_draw.draw_landmarks], called on every hand before its label
      is read: it belongs to the detector's library, and MediaPipe's
      version raises [ValueError] on a hand of fewer than 21 keypoints.
    - The code around the controller.  [draw_info_text] returns the calls
      it draws on the overlay; [draw_cube], [init_opengl] and the loop of
      [main] return the calls they make to OpenGL and to the window, in
      order.  Float formatting ([format(v, '.2f')]) is a parameter.  The
      loop is run on the turns the environment feeds it: the pending
      events, the camera read, the detector's output and the texture name
      of each turn.  The set-up of [main] before the loop and the two
      clean-up calls after it are left out. *)

From Stdlib Require Import Floats Uint63.
From Stdlib Require Import List String Bool Arith ZArith Lia.
From Stdlib Require Import DecimalString.
From Stdlib Require Import Reals Lra Psatz.
Import ListNotations.

Set Implicit Arguments.

(** ** Python values *)

(** The arithmetic of the source, abstract in the carrier. *)
Class PyNum (T : Type) : Type := {
  nofZ : Z -> T;          (* an integer literal, or an int met in float arithmetic *)
  nadd : T -> T -> T;
  nsub : T -> T -> T;
  nmul : T -> T -> T;
  ndiv : T -> T -> T;
  nsqrt : T -> T;         (* np.sqrt *)
  nltb : T -> T -> bool   (* a < b *)
}.

Declare Scope py_scope.
Delimit Scope py_scope with py.
Infix "+" := nadd : py_scope.
Infix "-" := nsub : py_scope.
Infix "*" := nmul : py_scope.
Infix "/" := ndiv : py_scope.
Infix "<?" := nltb : py_scope.

(** Exceptions the modelled code can raise. *)
Inductive exn : Set := IndexError.

Inductive result (A : Type) : Type :=
| Ok (a : A)
| Raise (e : exn).
Arguments Ok {A} a.
Arguments Raise {A} e.

Definition bind {A B : Type} (m : result A) (k : A -> result B) : result B :=
  match m with
  | Ok a => k a
  | Raise e => Raise e
  end.

Notation "v <- m ;; k" := (bind m (fun v => k))
  (at level 61, m at next level, right associativity).

(** [seq[i]] for a non-negative index [i]. *)
Definition getitem {A : Type} (seq : list A) (i : nat) : result A :=
  match nth_error seq i with
  | Some a => Ok a
  | None => Raise IndexError
  end.

(** Truth value of a sequence: empty is false. *)
Definition truthy {A : Type} (seq : list A) : bool :=
  match seq with
  | [] => false
  | _ :: _ => true
  end.

(** Truth value of a name that holds [None] or a sequence. *)
Definition truthy_opt {A : Type} (o : option (list A)) : bool :=
  match o with
  | None => false
  | Some seq => truthy seq
  end.

(** The sequence behind a name already tested to be true. *)
Definition seq_of {A : Type} (o : option (list A)) : list A :=
  match o with
  | None => []
  | Some seq => seq
  end.

Section Controller.

Context {T : Type} {num : PyNum T}.
Local Open Scope py_scope.

(** A decimal literal [n/d], such as [0.15] = [lit 15 100]. *)
Definition lit (n d : Z) : T := nofZ n / nofZ d.

(** [max(a, b)] and [min(a, b)]: the second argument replaces the first
    only when it is strictly greater (smaller). *)
Definition py_max (a b : T) : T := if a <? b then b else a.
Definition py_min (a b : T) : T := if b <? a then b else a.

(** ** Detector output *)

(** A normalized landmark; the code reads [x] and [y] only. *)
Record Landmark : Type := { x : T; y : T }.

(** [hand_landmarks] of the detector: its [landmark] field is the
    keypoint sequence. *)
Record NormalizedLandmarkList : Type := { landmark : list Landmark }.

Record Classification : Type := { label : string }.

(** [handedness] of the detector. *)
Record ClassificationList : Type := { classification : list Classification }.

(** What [self.hands.process] returns; both fields are [None] when no
    hand is seen. *)
Record SolutionOutputs : Type := {
  multi_hand_landmarks : option (list NormalizedLandmarkList);
  multi_handedness : option (list ClassificationList)
}.

(** ** Controller state *)

Record ARCubeController : Type := {
  scale : T;
  smooth_factor : T;
  target_scale : T;
  control_hand : option string;
  rotation_hand : option string;
  rotation_x : T;
  rotation_y : T;
  target_rotation_x : T;
  target_rotation_y : T;
  rotation_x_sensitivity : T;
  rotation_y_sensitivity : T;
  scale_min : T;
  scale_max : T
}.

(** [__init__] *)
Definition init : ARCubeController := {|
  scale := lit 20 10;
  smooth_factor := lit 15 100;
  target_scale := lit 20 10;
  control_hand := None;
  rotation_hand := None;
  rotation_x := nofZ 20;
  rotation_y := nofZ 30;
  target_rotation_x := nofZ 20;
  target_rotation_y := nofZ 30;
  rotation_x_sensitivity := nofZ 180;
  rotation_y_sensitivity := nofZ 360;
  scale_min := lit 5 10;
  scale_max := lit 50 10
|}.

(** Attribute assignments [self.f = v]. *)
Definition set_scale (v : T) (self : ARCubeController) : ARCubeController :=
  {| scale := v; smooth_factor := smooth_factor self;
     target_scale := target_scale self;
     control_hand := control_hand self; rotation_hand := rotation_hand self;
     rotation_x := rotation_x self; rotation_y := rotation_y self;
     target_rotation_x := target_rotation_x self;
     target_rotation_y := target_rotation_y self;
     rotation_x_sensitivity := rotation_x_sensitivity self;
     rotation_y_sensitivity := rotation_y_sensitivity self;
     scale_min := scale_min self; scale_max := scale_max self |}.

Definition set_target_scale (v : T) (self : ARCubeController) : ARCubeController :=
  {| scale := scale self; smooth_factor := smooth_factor self;
     target_scale := v;
     control_hand := control_hand self; rotation_hand := rotation_hand self;
     rotation_x := rotation_x self; rotation_y := rotation_y self;
     target_rotation_x := target_rotation_x self;
     target_rotation_y := target_rotation_y self;
     rotation_x_sensitivity := rotation_x_sensitivity self;
     rotation_y_sensitivity := rotation_y_sensitivity self;
     scale_min := scale_min self; scale_max := scale_max self |}.

Definition set_control_hand (v : option string) (self : ARCubeController)
  : ARCubeController :=
  {| scale := scale self; smooth_factor := smooth_factor self;
     target_scale := target_scale self;
     control_hand := v; rotation_hand := rotation_hand self;
     rotation_x := rotation_x self; rotation_y := rotation_y self;
     target_rotation_x := target_rotation_x self;
     target_rotation_y := target_rotation_y self;
     rotation_x_sensitivity := rotation_x_sensitivity self;
     rotation_y_sensitivity := rotation_y_sensitivity self;
     scale_min := scale_min self; scale_max := scale_max self |}.

Definition set_rotation_hand (v : option string) (self : ARCubeController)
  : ARCubeController :=
  {| scale := scale self; smooth_factor := smooth_factor self;
     target_scale := target_scale self;
     control_hand := control_hand self; rotation_hand := v;
     rotation_x := rotation_x self; rotation_y := rotation_y self;
     target_rotation_x := target_rotation_x self;
     target_rotation_y := target_rotation_y self;
     rotation_x_sensitivity := rotation_x_sensitivity self;
     rotation_y_sensitivity := rotation_y_sensitivity self;
     scale_min := scale_min self; scale_max := scale_max self |}.

Definition set_rotation_x (v : T) (self : ARCubeController) : ARCubeController :=
  {| scale := scale self; smooth_factor := smooth_factor self;
     target_scale := target_scale self;
     control_hand := control_hand self; rotation_hand := rotation_hand self;
     rotation_x := v; rotation_y := rotation_y self;
     target_rotation_x := target_rotation_x self;
     target_rotation_y := target_rotation_y self;
     rotation_x_sensitivity := rotation_x_sensitivity self;
     rotation_y_sensitivity := rotation_y_sensitivity self;
     scale_min := scale_min self; scale_max := scale_max self |}.

Definition set_rotation_y (v : T) (self : ARCubeController) : ARCubeController :=
  {| scale := scale self; smooth_factor := smooth_factor self;
     target_scale := target_scale self;
     control_hand := control_hand self; rotation_hand := rotation_hand self;
     rotation_x := rotation_x self; rotation_y := v;
     target_rotation_x := target_rotation_x self;
     target_rotation_y := target_rotation_y self;
     rotation_x_sensitivity := rotation_x_sensitivity self;
     rotation_y_sensitivity := rotation_y_sensitivity self;
     scale_min := scale_min self; scale_max := scale_max self |}.

Definition set_target_rotation_x (v : T) (self : ARCubeController)
  : ARCubeController :=
  {| scale := scale self; smooth_factor := smooth_factor self;
     target_scale := target_scale self;
     control_hand := control_hand self; rotation_hand := rotation_hand self;
     rotation_x := rotation_x self; rotation_y := rotation_y self;
     target_rotation_x := v;
     target_rotation_y := target_rotation_y self;
     rotation_x_sensitivity := rotation_x_sensitivity self;
     rotation_y_sensitivity := rotation_y_sensitivity self;
     scale_min := scale_min self; scale_max := scale_max self |}.

Definition set_target_rotation_y (v : T) (self : ARCubeController)
  : ARCubeController :=
  {| scale := scale self; smooth_factor := smooth_factor self;
     target_scale := target_scale self;
     control_hand := control_hand self; rotation_hand := rotation_hand self;
     rotation_x := rotation_x self; rotation_y := rotation_y self;
     target_rotation_x := target_rotation_x self;
     target_rotation_y := v;
     rotation_x_sensitivity := rotation_x_sensitivity self;
     rotation_y_sensitivity := rotation_y_sensitivity self;
     scale_min := scale_min self; scale_max := scale_max self |}.

(** ** Feature extraction *)

(** The loop body of [calculate_palm_openness]: add the distance of one
    fingertip from the palm centre to the running total.  [dx**2] is
    written [dx * dx]: the same number in exact arithmetic; on binary64
    the power raises [OverflowError] where the product gives infinity,
    which is left out here. *)
Definition add_distance (palm_center : Landmark) (total_distance : T)
  (tip : Landmark) : T :=
  let dx := x tip - x palm_center in
  let dy := y tip - y palm_center in
  let distance := nsqrt (dx * dx + dy * dy) in
  total_distance + distance.

Definition calculate_palm_openness (hand_landmarks : list Landmark) : result T :=
  palm_center <- getitem hand_landmarks 0 ;;
  thumb <- getitem hand_landmarks 4 ;;
  index <- getitem hand_landmarks 8 ;;
  middle <- getitem hand_landmarks 12 ;;
  ring <- getitem hand_landmarks 16 ;;
  pinky <- getitem hand_landmarks 20 ;;
  let fingertips := [thumb; index; middle; ring; pinky] in
  let total_distance := fold_left (add_distance palm_center) fingertips (nofZ 0) in
  let avg_distance := total_distance / nofZ (Z.of_nat (List.length fingertips)) in
  let min_distance := lit 10 100 in
  let max_distance := lit 40 100 in
  let openness := (avg_distance - min_distance) / (max_distance - min_distance) in
  let openness := py_max (nofZ 0) (py_min (nofZ 1) openness) in
  Ok openness.

Definition smooth_value (current target factor : T) : T :=
  current + (target - current) * factor.

Definition get_hand_position (hand_landmarks : list Landmark) : result (T * T) :=
  wrist <- getitem hand_landmarks 0 ;;
  Ok (x wrist, y wrist).

(** ** Targets *)

Definition update_rotation_from_hand (self : ARCubeController)
  (hand_landmarks : list Landmark) : result ARCubeController :=
  pos <- get_hand_position hand_landmarks ;;
  let '(px, py) := pos in
  let self := set_target_rotation_y
                ((px - lit 5 10) * rotation_y_sensitivity self) self in
  let self := set_target_rotation_x
                ((lit 5 10 - py) * rotation_x_sensitivity self) self in
  Ok self.

Definition update_scale_from_palm (self : ARCubeController)
  (hand_landmarks : list Landmark) : result ARCubeController :=
  openness <- calculate_palm_openness hand_landmarks ;;
  Ok (set_target_scale
        (scale_min self + openness * (scale_max self - scale_min self)) self).

(** ** One frame *)

(** The [for ... in zip(...)] loop of [process_hands]: remember the
    landmarks of the hands labelled "Left" and "Right".  The call of
    [self.mp_draw.draw_landmarks] that opens the loop body draws on the
    frame and is left out. *)
Fixpoint scan_hands
  (pairs : list (NormalizedLandmarkList * ClassificationList))
  (left_hand right_hand : option (list Landmark))
  : result (option (list Landmark) * option (list Landmark)) :=
  match pairs with
  | [] => Ok (left_hand, right_hand)
  | (hand_landmarks, handedness) :: rest =>
      c <- getitem (classification handedness) 0 ;;
      if String.eqb (label c) "Left" then
        scan_hands rest (Some (landmark hand_landmarks)) right_hand
      else if String.eqb (label c) "Right" then
        scan_hands rest left_hand (Some (landmark hand_landmarks))
      else
        scan_hands rest left_hand right_hand
  end.

(** The [if left_hand and right_hand: ... elif ...] chain. *)
Definition control_scheme (self : ARCubeController)
  (left_hand right_hand : option (list Landmark)) : result ARCubeController :=
  if truthy_opt left_hand && truthy_opt right_hand then
    let self := set_control_hand (Some "left"%string) self in
    let self := set_rotation_hand (Some "right"%string) self in
    self <- update_scale_from_palm self (seq_of left_hand) ;;
    update_rotation_from_hand self (seq_of right_hand)
  else if truthy_opt left_hand then
    let self := set_control_hand (Some "left"%string) self in
    let self := set_rotation_hand None self in
    update_scale_from_palm self (seq_of left_hand)
  else if truthy_opt right_hand then
    let self := set_control_hand None self in
    let self := set_rotation_hand (Some "right"%string) self in
    update_rotation_from_hand self (seq_of right_hand)
  else
    Ok self.

(** The three assignments under [# Apply smoothing]. *)
Definition apply_smoothing (self : ARCubeController) : ARCubeController :=
  let self := set_scale
    (smooth_value (scale self) (target_scale self) (smooth_factor self)) self in
  let self := set_rotation_x
    (smooth_value (rotation_x self) (target_rotation_x self) (smooth_factor self)) self in
  let self := set_rotation_y
    (smooth_value (rotation_y self) (target_rotation_y self) (smooth_factor self)) self in
  self.

Definition process_hands (self : ARCubeController) (results : SolutionOutputs)
  : result ARCubeController :=
  let left_hand : option (list Landmark) := None in
  let right_hand : option (list Landmark) := None in
  if truthy_opt (multi_hand_landmarks results)
     && truthy_opt (multi_handedness results) then
    hs <- scan_hands (combine (seq_of (multi_hand_landmarks results))
                              (seq_of (multi_handedness results)))
                     left_hand right_hand ;;
    self <- control_scheme self (fst hs) (snd hs) ;;
    Ok (apply_smoothing self)
  else
    let self := set_control_hand None self in
    let self := set_rotation_hand None self in
    Ok (apply_smoothing self).

End Controller.

Arguments Landmark T : clear implicits.
Arguments NormalizedLandmarkList T : clear implicits.
Arguments SolutionOutputs T : clear implicits.
Arguments ARCubeController T : clear implicits.
Arguments init {T num}.

(** ** The two number models *)

Definition Rltb (a b : R) : bool := if Rlt_dec a b then true else false.

(** Exact arithmetic on the reals: the model the properties are proved in. *)
#[export] Instance PyNum_R : PyNum R := {|
  nofZ := IZR;
  nadd := Rplus;
  nsub := Rminus;
  nmul := Rmult;
  ndiv := Rdiv;
  nsqrt := R_sqrt.sqrt;
  nltb := Rltb
|}.

(** An int converted to a float (exact for the small constants of the
    program). *)
Definition float_of_Z (z : Z) : float :=
  match z with
  | Zneg p => PrimFloat.opp (PrimFloat.of_uint63 (Uint63.of_Z (Zpos p)))
  | _ => PrimFloat.of_uint63 (Uint63.of_Z z)
  end.

(** IEEE 754 binary64, the arithmetic the program runs on.  A decimal
    literal [n/d] is the correctly rounded quotient of two exactly
    represented integers, hence the float nearest to the literal. *)
#[export] Instance PyNum_float : PyNum float := {|
  nofZ := float_of_Z;
  nadd := PrimFloat.add;
  nsub := PrimFloat.sub;
  nmul := PrimFloat.mul;
  ndiv := PrimFloat.div;
  nsqrt := PrimFloat.sqrt;
  nltb := PrimFloat.ltb
|}.

(** ** Derived notions used in the statements *)

Section Frames.

Context {T : Type} {num : PyNum T}.
Local Open Scope py_scope.

(** The guard [results.multi_hand_landmarks and results.multi_handedness]. *)
Definition hands_reported (results : SolutionOutputs T) : bool :=
  truthy_opt (multi_hand_landmarks results)
  && truthy_opt (multi_handedness results).

(** The pairs the loop of [process_hands] visits, in order. *)
Definition hand_pairs (results : SolutionOutputs T)
  : list (NormalizedLandmarkList T * ClassificationList) :=
  if hands_reported results then
    combine (seq_of (multi_hand_landmarks results))
            (seq_of (multi_handedness results))
  else [].

(** [left_hand] and [right_hand] as they stand when the control scheme
    is chosen. *)
Definition detected_hands (results : SolutionOutputs T)
  : result (option (list (Landmark T)) * option (list (Landmark T))) :=
  scan_hands (hand_pairs results) None None.

(** The label the loop reads from a pair, when there is one. *)
Definition label_of (p : NormalizedLandmarkList T * ClassificationList)
  : option string :=
  match classification (snd p) with
  | c :: _ => Some (label c)
  | [] => None
  end.

Definition has_label (lbl : string)
  (p : NormalizedLandmarkList T * ClassificationList) : bool :=
  match label_of p with
  | Some l => String.eqb l lbl
  | None => false
  end.

(** The landmarks of the last pair labelled [lbl], if any. *)
Fixpoint last_labelled (lbl : string)
  (pairs : list (NormalizedLandmarkList T * ClassificationList))
  : option (list (Landmark T)) :=
  match pairs with
  | [] => None
  | p :: rest =>
      match last_labelled lbl rest with
      | Some h => Some h
      | None => if has_label lbl p then Some (landmark (fst p)) else None
      end
  end.

(** A hand as the detector documents it: 21 keypoints, labelled "Left"
    or "Right". *)
Definition valid_hand (p : NormalizedLandmarkList T * ClassificationList)
  : Prop :=
  List.length (landmark (fst p)) = 21
  /\ (label_of p = Some "Left"%string \/ label_of p = Some "Right"%string).

(** Role assignment as the specification tabulates it, from the
    presence of a Left and of a Right hand. *)
Definition spec_assign_roles (left_present right_present : bool)
  : option string * option string :=
  match left_present, right_present with
  | true, true => (Some "left"%string, Some "right"%string)
  | true, false => (Some "left"%string, None)
  | false, true => (None, Some "right"%string)
  | false, false => (None, None)
  end.

(** The three shapes a state takes within a frame. *)
Definition with_roles (c rh : option string) (self : ARCubeController T)
  : ARCubeController T :=
  set_rotation_hand rh (set_control_hand c self).

Definition with_scale_target (openness : T) (self : ARCubeController T)
  : ARCubeController T :=
  set_target_scale
    (scale_min self + openness * (scale_max self - scale_min self)) self.

Definition with_rotation_target (wrist : Landmark T) (self : ARCubeController T)
  : ARCubeController T :=
  set_target_rotation_x
    ((lit 5 10 - y wrist) * rotation_x_sensitivity self)
    (set_target_rotation_y
       ((x wrist - lit 5 10) * rotation_y_sensitivity self) self).

(** What the control scheme does, case by case. *)
Inductive scheme_outcome (self : ARCubeController T)
  (l r : option (list (Landmark T))) : ARCubeController T -> Prop :=
| outcome_both (o : T) (w : Landmark T) (rest : list (Landmark T)) :
    truthy_opt l = true -> r = Some (w :: rest) ->
    calculate_palm_openness (seq_of l) = Ok o ->
    scheme_outcome self l r
      (with_rotation_target w
         (with_scale_target o
            (with_roles (Some "left"%string) (Some "right"%string) self)))
| outcome_left (o : T) :
    truthy_opt l = true -> truthy_opt r = false ->
    calculate_palm_openness (seq_of l) = Ok o ->
    scheme_outcome self l r
      (with_scale_target o (with_roles (Some "left"%string) None self))
| outcome_right (w : Landmark T) (rest : list (Landmark T)) :
    truthy_opt l = false -> r = Some (w :: rest) ->
    scheme_outcome self l r
      (with_rotation_target w (with_roles None (Some "right"%string) self))
| outcome_none :
    truthy_opt l = false -> truthy_opt r = false ->
    scheme_outcome self l r self.

(** The three smoothed quantities, each with its current value and its
    target. *)
Inductive Field : Set := Scale | RotationX | RotationY.

Definition current (fld : Field) (self : ARCubeController T) : T :=
  match fld with
  | Scale => scale self
  | RotationX => rotation_x self
  | RotationY => rotation_y self
  end.

Definition target (fld : Field) (self : ARCubeController T) : T :=
  match fld with
  | Scale => target_scale self
  | RotationX => target_rotation_x self
  | RotationY => target_rotation_y self
  end.

(** [target_held fld t self k self']: [k] successive frames lead from
    [self] to [self'], and after each of them the target of [fld] is
    [t]. *)
Inductive target_held (fld : Field) (t : T)
  : ARCubeController T -> nat -> ARCubeController T -> Prop :=
| held_done (self : ARCubeController T) : target_held fld t self 0 self
| held_frame (self self1 self' : ARCubeController T)
    (results : SolutionOutputs T) (k : nat) :
    process_hands self results = Ok self1 ->
    target fld self1 = t ->
    target_held fld t self1 k self' ->
    target_held fld t self (S k) self'.

(** Frames processed in sequence; an exception ends the run. *)
Fixpoint run (self : ARCubeController T) (frames : list (SolutionOutputs T))
  : result (ARCubeController T) :=
  match frames with
  | [] => Ok self
  | results :: rest =>
      self <- process_hands self results ;;
      run self rest
  end.

(** States the running program can be in between two frames. *)
Inductive reachable : ARCubeController T -> Prop :=
| reachable_init : reachable init
| reachable_step (self self' : ARCubeController T) (results : SolutionOutputs T) :
    reachable self -> process_hands self results = Ok self' -> reachable self'.

End Frames.

(** ** Sample hands and frames *)

Section Samples.

Context {T : Type} {num : PyNum T}.

(** A hand of [n] keypoints: the wrist, then every other keypoint at
    [tip]. *)
Definition hand_of (n : nat) (wrist tip : Landmark T) : list (Landmark T) :=
  match n with
  | O => []
  | S m => wrist :: repeat tip m
  end.

Definition handedness_of (lbl : string) : ClassificationList :=
  {| classification := [ {| label := lbl |} ] |}.

(** A frame in which the detector reports the given labelled hands. *)
Definition frame_of (hands : list (list (Landmark T) * string))
  : SolutionOutputs T :=
  {| multi_hand_landmarks :=
       Some (map (fun p => {| landmark := fst p |}) hands);
     multi_handedness := Some (map (fun p => handedness_of (snd p)) hands) |}.

(** A frame in which the detector sees no hand. *)
Definition no_hands : SolutionOutputs T :=
  {| multi_hand_landmarks := None; multi_handedness := None |}.

(** The point [(a/c, b/c)]. *)
Definition point (a b c : Z) : Landmark T :=
  {| x := lit a c; y := lit b c |}.

(** A frame with one Left hand, fully open: every fingertip 0.45 above
    the wrist. *)
Definition open_hand_frame : SolutionOutputs T :=
  frame_of [(hand_of 21 (point 50 50 100) (point 50 5 100), "Left"%string)].

(** A controller whose attributes [scale_min] and [scale_max] were
    assigned other values. *)
Definition with_scale_bounds (lo hi : T) (self : ARCubeController T)
  : ARCubeController T :=
  {| scale := scale self; target_scale := target_scale self;
     smooth_factor := smooth_factor self;
     control_hand := control_hand self; rotation_hand := rotation_hand self;
     rotation_x := rotation_x self; rotation_y := rotation_y self;
     target_rotation_x := target_rotation_x self;
     target_rotation_y := target_rotation_y self;
     rotation_x_sensitivity := rotation_x_sensitivity self;
     rotation_y_sensitivity := rotation_y_sensitivity self;
     scale_min := lo; scale_max := hi |}.

End Samples.

(** ** Geometry of the specification, on the reals *)

(** Euclidean distance of two landmarks in the normalized image plane. *)
Definition euclidean_distance (p q : Landmark R) : R :=
  R_sqrt.sqrt (Rsqr (x q - x p) + Rsqr (y q - y p)).

Definition origin : Landmark R := {| x := 0%R; y := 0%R |}.

(** Keypoint [i] of a hand. *)
Definition keypoint (hand : list (Landmark R)) (i : nat) : Landmark R :=
  nth i hand origin.

(** The average of the five wrist-to-fingertip distances: thumb, index,
    middle, ring and pinky tips are keypoints 4, 8, 12, 16 and 20, the
    wrist is keypoint 0. *)
Definition avg_fingertip_distance (hand : list (Landmark R)) : R :=
  ((euclidean_distance (keypoint hand 0) (keypoint hand 4)
    + euclidean_distance (keypoint hand 0) (keypoint hand 8)
    + euclidean_distance (keypoint hand 0) (keypoint hand 12)
    + euclidean_distance (keypoint hand 0) (keypoint hand 16)
    + euclidean_distance (keypoint hand 0) (keypoint hand 20)) / 5)%R.

(** The scale bound of the specification. *)
Definition scale_in_bounds (self : ARCubeController R) : Prop :=
  (scale_min self <= scale self <= scale_max self
   /\ scale_min self <= target_scale self <= scale_max self)%R.

(** A state whose current values sit on their targets. *)
Definition settled (self : ARCubeController R) : Prop :=
  scale self = target_scale self
  /\ rotation_x self = target_rotation_x self
  /\ rotation_y self = target_rotation_y self.

(** ** The overlay, the cube and the main loop *)

(** Exceptions of the code around the controller: the [IndexError] of
    the controller itself, a division by zero, and the two ways [int()]
    refuses a float. *)
Inductive pyexc : Set :=
| FromController (e : exn)
| ZeroDivisionError
| OverflowError
| ValueError.

Inductive attempt (A : Type) : Type :=
| Returns (a : A)
| Throws (e : pyexc).
Arguments Returns {A} a.
Arguments Throws {A} e.

Definition attempt_bind {A B : Type} (m : attempt A) (k : A -> attempt B)
  : attempt B :=
  match m with
  | Returns a => k a
  | Throws e => Throws e
  end.

Notation "v <~ m ;; k" := (attempt_bind m (fun v => k))
  (at level 61, m at next level, right associativity).

(** A call into the controller from the code around it. *)
Definition lift {A : Type} (m : result A) : attempt A :=
  match m with
  | Ok a => Returns a
  | Raise e => Throws (FromController e)
  end.

(** The arithmetic the drawing code uses beyond [PyNum]. *)
Class PyNumDraw (T : Type) : Type := {
  nneg : T -> T;             (* -a *)
  neqb : T -> T -> bool;     (* a == b *)
  ntrunc : T -> attempt Z    (* int(a) *)
}.

(** [int()] on a real: the integer part, toward zero. *)
Definition R_trunc (r : R) : Z :=
  if Rle_dec 0 r then Int_part r else (- Int_part (- r))%Z.

#[export] Instance PyNumDraw_R : PyNumDraw R := {|
  nneg := Ropp;
  neqb := fun a b => if Req_dec_T a b then true else false;
  ntrunc := fun r => Returns (R_trunc r)
|}.

(** [int()] on a binary64 float: the value [m * 2^e] cut toward zero;
    infinities and NaN are refused. *)
Definition float_trunc (f : float) : attempt Z :=
  match Prim2SF f with
  | S754_zero _ => Returns 0%Z
  | S754_finite s m e =>
      let z := if (0 <=? e)%Z then (Zpos m * 2 ^ e)%Z
               else (Zpos m / 2 ^ (- e))%Z in
      Returns (if s then (- z)%Z else z)
  | S754_infinity _ => Throws OverflowError
  | S754_nan => Throws ValueError
  end.

#[export] Instance PyNumDraw_float : PyNumDraw float := {|
  nneg := PrimFloat.opp;
  neqb := PrimFloat.eqb;
  ntrunc := float_trunc
|}.

(** Truth value of an attribute that holds [None] or a string. *)
Definition truthy_str (o : option string) : bool :=
  match o with
  | None => false
  | Some s => negb (String.eqb s "")
  end.

(** [attribute == s] for an attribute that holds [None] or a string. *)
Definition eq_str (o : option string) (s : string) : bool :=
  match o with
  | None => false
  | Some s' => String.eqb s' s
  end.

(** [str(n)] for an int. *)
Definition str_of_int (n : Z) : string :=
  NilZero.string_of_int (Z.to_int n).

(** Pygame events, as far as the loop reads them: the type, and the key
    of a key event. *)
Inductive EventType : Set := QUIT | KEYDOWN | OtherEvent.

Record Event : Set := { type : EventType; key : Z }.

Definition K_ESCAPE : Z := 27.

Inductive GLenum : Set :=
| GL_BLEND | GL_SRC_ALPHA | GL_ONE_MINUS_SRC_ALPHA
| GL_QUADS | GL_LINES
| GL_DEPTH_TEST | GL_TEXTURE_2D
| GL_PROJECTION | GL_MODELVIEW
| GL_COLOR_BUFFER_BIT | GL_DEPTH_BUFFER_BIT
| GL_RGB | GL_UNSIGNED_BYTE
| GL_TEXTURE_MIN_FILTER | GL_TEXTURE_MAG_FILTER | GL_LINEAR.

Inductive Font : Set := FONT_HERSHEY_SIMPLEX.

Section Drawing.

Context {T : Type} {num : PyNum T} {draw : PyNumDraw T}.
Local Open Scope py_scope.

(** Python's [format(value, '.Nf')], the fixed-point rendering of a
    float to [N] decimals, is taken as given. *)
Variable format_f : nat -> T -> string.

(** [a / b] between Python floats.  (When [a] is a numpy scalar, as a
    target computed from a hand is, a zero divisor yields an infinity or a
    NaN that [int()] then refuses: an exception leaves the same line
    either way.) *)
Definition py_truediv (a b : T) : attempt T :=
  if neqb b (nofZ 0) then Throws ZeroDivisionError else Returns (a / b).

(** *** [draw_info_text] *)

(** The drawing calls made on the overlay image. *)
Inductive OverlayCall : Type :=
| cv2_rectangle (pt1 pt2 : Z * Z) (color : Z * Z * Z) (thickness : Z)
| cv2_putText (text : string) (org : Z * Z) (font : Font) (font_scale : T)
    (color : Z * Z * Z) (thickness : Z).

(** The overlay: a black image of the given shape and the calls drawn
    on it, in order. *)
Record Overlay : Type := {
  overlay_shape : Z * Z * Z;
  overlay_calls : list OverlayCall
}.

(** [status], [left_status] and [right_status]. *)
Definition status_text (controller : ARCubeController T)
  : string * string * string :=
  if truthy_str (control_hand controller)
     && truthy_str (rotation_hand controller) then
    ("Both Hands Active", "Left: Size Control", "Right: Rotation")%string
  else if eq_str (control_hand controller) "left" then
    ("Left Hand: Size Control", "Open palm = Larger",
     "Close palm = Smaller")%string
  else if eq_str (rotation_hand controller) "right" then
    ("Right Hand: Rotation", "Move to rotate cube", "")%string
  else
    ("No Hands Detected", "Show your hand(s)", "")%string.

Definition openness_percent (controller : ARCubeController T) : attempt Z :=
  ratio <~ py_truediv (target_scale controller - scale_min controller)
                      (scale_max controller - scale_min controller) ;;
  ntrunc (ratio * nofZ 100).

Definition info_lines (controller : ARCubeController T)
  (status left_status right_status : string) (percent : Z) : list string :=
  [ "AR 3D Cube Controller";
    "Status: " ++ status;
    "";
    "Cube Size: " ++ format_f 2 (scale controller);
    "Palm Openness: " ++ str_of_int percent ++ "%";
    "Rotation: X:" ++ format_f 0 (rotation_x controller)
      ++ "° Y:" ++ format_f 0 (rotation_y controller) ++ "°";
    "";
    "Controls:";
    left_status;
    right_status;
    "";
    "ONE HAND:";
    "  Left Hand - Size control";
    "    Open palm = Bigger";
    "    Close fist = Smaller";
    "  Right Hand - Rotation";
    "    Move around to rotate";
    "";
    "TWO HANDS:";
    "  Left - Size control";
    "  Right - Rotation control";
    "";
    "ESC - Exit" ]%string.

(** The [for line in info_lines] loop, from a given [y_offset]. *)
Fixpoint put_lines (lines : list string) (y_offset : Z) : list OverlayCall :=
  match lines with
  | [] => []
  | line :: rest =>
      (if negb (String.eqb line "") then
         let font_scale :=
           if negb (String.prefix "  " line) then lit 6 10 else lit 5 10 in
         let thickness :=
           if String.prefix "AR" line || String.prefix "Status" line
           then 2%Z else 1%Z in
         let color :=
           if String.prefix "Status" line then (100, 255, 100)%Z
           else (255, 255, 255)%Z in
         [cv2_putText line (20, y_offset)%Z FONT_HERSHEY_SIMPLEX
                      font_scale color thickness]
       else [])
      ++ put_lines rest (y_offset + 24)%Z
  end.

(** [draw_info_text], for the width and height of a camera frame, both
    positive.  For other sizes [np.zeros] or [cv2.rectangle] can refuse
    the image; those faults of the libraries are not represented, so what
    is stated of the overlay is stated of the calls that return. *)
Definition draw_info_text (controller : ARCubeController T)
  (frame_width frame_height : Z) : attempt Overlay :=
  let '(status, left_status, right_status) := status_text controller in
  percent <~ openness_percent controller ;;
  let lines := info_lines controller status left_status right_status percent in
  Returns {| overlay_shape := (frame_height, frame_width, 3%Z);
             overlay_calls :=
               cv2_rectangle (10, 10)%Z (400, 520)%Z (50, 50, 50)%Z (-1)%Z
               :: put_lines lines 30%Z |}.

End Drawing.

Arguments OverlayCall T : clear implicits.
Arguments Overlay T : clear implicits.

Section Scene.

Context {T : Type} {num : PyNum T} {draw : PyNumDraw T}.
Local Open Scope py_scope.

Variable format_f : nat -> T -> string.

(** A number passed to a graphics call: an int or a float. *)
Inductive PyArg : Type :=
| PyInt (z : Z)
| PyFloat (v : T).

(** What is uploaded as the texture of a frame: the camera image of the
    given shape, blended with the overlay. *)
Record Image : Type := {
  image_shape : Z * Z;          (* frame.shape[0], frame.shape[1] *)
  image_overlay : Overlay T
}.

(** The calls made to OpenGL and to the window, with their arguments;
    [glGenTextures] is recorded with the name it returned. *)
Inductive Call : Type :=
| glEnable (cap : GLenum)
| glDisable (cap : GLenum)
| glBlendFunc (sfactor dfactor : GLenum)
| glBegin (mode : GLenum)
| glEnd
| glColor4f (r g b a : PyArg)
| glColor3f (r g b : PyArg)
| glLineWidth (width : PyArg)
| glVertex3fv (v : list T)
| glViewport (vx vy width height : Z)
| glMatrixMode (mode : GLenum)
| glLoadIdentity
| gluPerspective (fovy aspect zNear zFar : PyArg)
| glClearColor (r g b a : PyArg)
| glClear (mask : list GLenum)
| glTranslatef (tx ty tz : PyArg)
| glRotatef (angle ax ay az : PyArg)
| glPushMatrix
| glPopMatrix
| glOrtho (left right bottom top zNear zFar : PyArg)
| glGenTextures (n : Z) (returned : Z)
| glBindTexture (target : GLenum) (texture : Z)
| glTexImage2D (target : GLenum) (level : Z) (internalformat : GLenum)
    (width height border : Z) (format type_ : GLenum) (pixels : Image)
| glTexParameteri (target pname param : GLenum)
| glTexCoord2f (s t : PyArg)
| glVertex2f (vx vy : PyArg)
| glDeleteTextures (textures : list Z)
| pygame_display_flip
| clock_tick (framerate : Z).

(** *** [draw_cube] *)

Definition cube_vertices (s : T) : list (list T) :=
  [ [nneg s; nneg s; nneg s]; [s; nneg s; nneg s];
    [s; s; nneg s]; [nneg s; s; nneg s];
    [nneg s; nneg s; s]; [s; nneg s; s];
    [s; s; s]; [nneg s; s; s] ].

Definition cube_edges : list (nat * nat) :=
  [ (0, 1); (1, 2); (2, 3); (3, 0);
    (4, 5); (5, 6); (6, 7); (7, 4);
    (0, 4); (1, 5); (2, 6); (3, 7) ]%nat.

(** Four vertex indices and a colour. *)
Definition cube_faces : list (nat * nat * nat * nat * (Z * Z * Z)) :=
  [ (0, 1, 2, 3, (1, 0, 0)%Z);
    (4, 5, 6, 7, (0, 1, 0)%Z);
    (0, 1, 5, 4, (0, 0, 1)%Z);
    (2, 3, 7, 6, (1, 1, 0)%Z);
    (0, 3, 7, 4, (1, 0, 1)%Z);
    (1, 2, 6, 5, (0, 1, 1)%Z) ]%nat.

(** [face[:4]] and [face[4]]. *)
Definition face_indices (face : nat * nat * nat * nat * (Z * Z * Z))
  : list nat :=
  let '(a, b, c, d, _) := face in [a; b; c; d].

Definition face_color (face : nat * nat * nat * nat * (Z * Z * Z))
  : Z * Z * Z :=
  let '(_, _, _, _, color) := face in color.

(** [for vertex_index in ...: glVertex3fv(vertices[vertex_index])]. *)
Fixpoint vertex_calls (vertices : list (list T)) (indices : list nat)
  : result (list Call) :=
  match indices with
  | [] => Ok []
  | vertex_index :: rest =>
      v <- getitem vertices vertex_index ;;
      calls <- vertex_calls vertices rest ;;
      Ok (glVertex3fv v :: calls)
  end.

(** [for face in faces: ...]. *)
Fixpoint face_calls (vertices : list (list T))
  (faces : list (nat * nat * nat * nat * (Z * Z * Z)))
  : result (list Call) :=
  match faces with
  | [] => Ok []
  | face :: rest =>
      let '(r, g, b) := face_color face in
      vs <- vertex_calls vertices (face_indices face) ;;
      calls <- face_calls vertices rest ;;
      Ok (glColor4f (PyInt r) (PyInt g) (PyInt b) (PyFloat (lit 7 10))
          :: vs ++ calls)
  end.

(** [for edge in edges: ...]. *)
Fixpoint edge_calls (vertices : list (list T)) (edges : list (nat * nat))
  : result (list Call) :=
  match edges with
  | [] => Ok []
  | edge :: rest =>
      vs <- vertex_calls vertices [fst edge; snd edge] ;;
      calls <- edge_calls vertices rest ;;
      Ok (vs ++ calls)
  end.

Definition draw_cube (self : ARCubeController T) : result (list Call) :=
  let s := scale self in
  let vertices := cube_vertices s in
  let edges := cube_edges in
  let faces := cube_faces in
  quads <- face_calls vertices faces ;;
  lines <- edge_calls vertices edges ;;
  Ok ([glEnable GL_BLEND;
       glBlendFunc GL_SRC_ALPHA GL_ONE_MINUS_SRC_ALPHA;
       glBegin GL_QUADS]
      ++ quads
      ++ [glEnd;
          glDisable GL_BLEND;
          glColor3f (PyInt 1) (PyInt 1) (PyInt 1);
          glLineWidth (PyInt 3);
          glBegin GL_LINES]
      ++ lines
      ++ [glEnd]).

(** *** [init_opengl] *)

(** [width / height] between ints. *)
Definition int_truediv (a b : Z) : attempt T :=
  if (b =? 0)%Z then Throws ZeroDivisionError else Returns (nofZ a / nofZ b).

Definition init_opengl (width height : Z) : attempt (list Call) :=
  aspect <~ int_truediv width height ;;
  Returns [glViewport 0 0 width height;
           glMatrixMode GL_PROJECTION;
           glLoadIdentity;
           gluPerspective (PyInt 45) (PyFloat aspect)
                          (PyFloat (lit 1 10)) (PyFloat (lit 500 10));
           glMatrixMode GL_MODELVIEW;
           glLoadIdentity;
           glEnable GL_DEPTH_TEST;
           glClearColor (PyFloat (lit 1 10)) (PyFloat (lit 1 10))
                        (PyFloat (lit 1 10)) (PyFloat (lit 10 10))].

(** *** The [while running] loop of [main] *)

(** What [cap.read()] delivers when it succeeds, and what the
    collaborators make of the frame: its shape, the detector's output on
    it, and the texture name OpenGL hands out for it. *)
Record Capture : Type := {
  shape : Z * Z;
  detection : SolutionOutputs T;
  texture_id : Z
}.

(** One turn of the loop as the environment feeds it: the pending
    events, and the camera read ([None] when [ret] is false). *)
Record Iteration : Type := {
  events : list Event;
  read : option Capture
}.

(** The body of [for event in pygame.event.get()]. *)
Definition handle_event (running : bool) (event : Event) : bool :=
  let running :=
    match type event with
    | QUIT => false
    | _ => running
    end in
  match type event with
  | KEYDOWN => if (key event =? K_ESCAPE)%Z then false else running
  | _ => running
  end.

(** The calls under [# Clear and setup 3D scene] and [# Apply rotation]. *)
Definition scene_calls (controller : ARCubeController T) : list Call :=
  [glClear [GL_COLOR_BUFFER_BIT; GL_DEPTH_BUFFER_BIT];
   glLoadIdentity;
   glTranslatef (PyFloat (lit 0 10)) (PyFloat (lit 0 10)) (PyInt (-15));
   glRotatef (PyFloat (rotation_y controller)) (PyInt 0) (PyInt 1) (PyInt 0);
   glRotatef (PyFloat (rotation_x controller)) (PyInt 1) (PyInt 0) (PyInt 0)].

(** The calls from [# Display webcam feed in corner] to the end of the
    loop body. *)
Definition feed_calls (screen_width screen_height : Z) (texture_id : Z)
  (frame_rgb : Image) : list Call :=
  let feed_width := 400%Z in
  let feed_height := 300%Z in
  [glMatrixMode GL_PROJECTION;
   glPushMatrix;
   glLoadIdentity;
   glOrtho (PyInt 0) (PyInt screen_width) (PyInt screen_height)
           (PyInt 0) (PyInt (-1)) (PyInt 1);
   glMatrixMode GL_MODELVIEW;
   glPushMatrix;
   glLoadIdentity;
   glDisable GL_DEPTH_TEST;
   glEnable GL_TEXTURE_2D;
   glGenTextures 1 texture_id;
   glBindTexture GL_TEXTURE_2D texture_id;
   glTexImage2D GL_TEXTURE_2D 0 GL_RGB
                (snd (image_shape frame_rgb)) (fst (image_shape frame_rgb))
                0 GL_RGB GL_UNSIGNED_BYTE frame_rgb;
   glTexParameteri GL_TEXTURE_2D GL_TEXTURE_MIN_FILTER GL_LINEAR;
   glTexParameteri GL_TEXTURE_2D GL_TEXTURE_MAG_FILTER GL_LINEAR;
   glColor3f (PyInt 1) (PyInt 1) (PyInt 1);
   glBegin GL_QUADS;
   glTexCoord2f (PyInt 0) (PyInt 0);
   glVertex2f (PyInt (screen_width - feed_width - 20)) (PyInt 20);
   glTexCoord2f (PyInt 1) (PyInt 0);
   glVertex2f (PyInt (screen_width - 20)) (PyInt 20);
   glTexCoord2f (PyInt 1) (PyInt 1);
   glVertex2f (PyInt (screen_width - 20)) (PyInt (20 + feed_height));
   glTexCoord2f (PyInt 0) (PyInt 1);
   glVertex2f (PyInt (screen_width - feed_width - 20))
              (PyInt (20 + feed_height));
   glEnd;
   glDisable GL_TEXTURE_2D;
   glDeleteTextures [texture_id];
   glEnable GL_DEPTH_TEST;
   glPopMatrix;
   glMatrixMode GL_PROJECTION;
   glPopMatrix;
   glMatrixMode GL_MODELVIEW;
   pygame_display_flip;
   clock_tick 60].

(** The loop body after a successful read: hands, overlay, scene with
    the cube, camera feed in the corner, flip. *)
Definition frame_step (controller : ARCubeController T)
  (screen_width screen_height : Z) (capture : Capture)
  : attempt (ARCubeController T * list Call) :=
  controller <~ lift (process_hands controller (detection capture)) ;;
  info_overlay <~ draw_info_text format_f controller
                    (snd (shape capture)) (fst (shape capture)) ;;
  let frame_rgb := {| image_shape := shape capture;
                      image_overlay := info_overlay |} in
  cube <~ lift (draw_cube controller) ;;
  Returns
    (controller,
     scene_calls controller
     ++ cube
     ++ feed_calls screen_width screen_height (texture_id capture) frame_rgb).

(** How the loop stands after the turns it was fed. *)
Inductive LoopState : Type :=
| Exited (controller : ARCubeController T)     (* the loop is left *)
| Awaiting (controller : ARCubeController T)   (* still running *)
| Crashed (e : pyexc).                         (* an exception escaped *)

(** The loop, run on the turns the environment feeds it: the calls made
    so far and where the loop stands. *)
Fixpoint main_loop (running : bool) (controller : ARCubeController T)
  (screen_width screen_height : Z) (turns : list Iteration)
  : list Call * LoopState :=
  if running then
    match turns with
    | [] => ([], Awaiting controller)
    | turn :: rest =>
        let running := fold_left handle_event (events turn) running in
        match read turn with
        | None => ([], Exited controller)
        | Some capture =>
            match frame_step controller screen_width screen_height capture with
            | Throws e => ([], Crashed e)
            | Returns (controller, calls) =>
                let '(more, state) :=
                  main_loop running controller screen_width screen_height rest in
                (calls ++ more, state)
            end
        end
    end
  else ([], Exited controller).

End Scene.

Arguments PyArg T : clear implicits.
Arguments Image T : clear implicits.
Arguments Call T : clear implicits.
Arguments Capture T : clear implicits.
Arguments Iteration T : clear implicits.
Arguments LoopState T : clear implicits.

(** ** OpenGL bookkeeping *)

(** The part of the OpenGL state the program's calls act on: the current
    matrix mode, how many matrices are pushed on each stack, whether a
    [glBegin] is open, three capabilities, and the texture names
    generated and not yet deleted. *)
Record GLState : Set := {
  gl_matrix_mode : GLenum;
  gl_modelview_pushed : nat;
  gl_projection_pushed : nat;
  gl_in_begin : bool;
  gl_depth_test : bool;
  gl_blend : bool;
  gl_texture_2d : bool;
  gl_textures : list Z
}.

(** A fresh context: modelview mode, empty stacks, nothing enabled. *)
Definition gl_fresh : GLState :=
  {| gl_matrix_mode := GL_MODELVIEW;
     gl_modelview_pushed := 0; gl_projection_pushed := 0;
     gl_in_begin := false;
     gl_depth_test := false; gl_blend := false; gl_texture_2d := false;
     gl_textures := [] |}.

(** The state the loop of [main] works in between two frames: as fresh,
    with the depth test on. *)
Definition gl_between_frames : GLState :=
  {| gl_matrix_mode := GL_MODELVIEW;
     gl_modelview_pushed := 0; gl_projection_pushed := 0;
     gl_in_begin := false;
     gl_depth_test := true; gl_blend := false; gl_texture_2d := false;
     gl_textures := [] |}.

Definition gl_set_cap (cap : GLenum) (on : bool) (s : GLState) : GLState :=
  {| gl_matrix_mode := gl_matrix_mode s;
     gl_modelview_pushed := gl_modelview_pushed s;
     gl_projection_pushed := gl_projection_pushed s;
     gl_in_begin := gl_in_begin s;
     gl_depth_test := match cap with GL_DEPTH_TEST => on | _ => gl_depth_test s end;
     gl_blend := match cap with GL_BLEND => on | _ => gl_blend s end;
     gl_texture_2d := match cap with GL_TEXTURE_2D => on | _ => gl_texture_2d s end;
     gl_textures := gl_textures s |}.

Definition gl_set_begin (open : bool) (s : GLState) : GLState :=
  {| gl_matrix_mode := gl_matrix_mode s;
     gl_modelview_pushed := gl_modelview_pushed s;
     gl_projection_pushed := gl_projection_pushed s;
     gl_in_begin := open;
     gl_depth_test := gl_depth_test s; gl_blend := gl_blend s;
     gl_texture_2d := gl_texture_2d s;
     gl_textures := gl_textures s |}.

Definition gl_set_mode (mode : GLenum) (s : GLState) : GLState :=
  {| gl_matrix_mode := mode;
     gl_modelview_pushed := gl_modelview_pushed s;
     gl_projection_pushed := gl_projection_pushed s;
     gl_in_begin := gl_in_begin s;
     gl_depth_test := gl_depth_test s; gl_blend := gl_blend s;
     gl_texture_2d := gl_texture_2d s;
     gl_textures := gl_textures s |}.

Definition gl_set_pushed (modelview projection : nat) (s : GLState) : GLState :=
  {| gl_matrix_mode := gl_matrix_mode s;
     gl_modelview_pushed := modelview;
     gl_projection_pushed := projection;
     gl_in_begin := gl_in_begin s;
     gl_depth_test := gl_depth_test s; gl_blend := gl_blend s;
     gl_texture_2d := gl_texture_2d s;
     gl_textures := gl_textures s |}.

Definition gl_set_textures (textures : list Z) (s : GLState) : GLState :=
  {| gl_matrix_mode := gl_matrix_mode s;
     gl_modelview_pushed := gl_modelview_pushed s;
     gl_projection_pushed := gl_projection_pushed s;
     gl_in_begin := gl_in_begin s;
     gl_depth_test := gl_depth_test s; gl_blend := gl_blend s;
     gl_texture_2d := gl_texture_2d s;
     gl_textures := textures |}.

(** The effect of one call, or [None] where OpenGL reports an error:
    between [glBegin] and [glEnd] only colours, vertices and texture
    coordinates may be sent, and vertices only there; [glEnd] needs an open
    [glBegin]; [glPopMatrix] needs a pushed matrix; a push must stay
    within the depth every implementation grants (32 modelview matrices,
    2 projection matrices, the current one included); a generated texture
    name must be new. *)
Definition gl_step {T : Type} (s : GLState) (call : Call T) : option GLState :=
  if gl_in_begin s then
    match call with
    | glEnd => Some (gl_set_begin false s)
    | glColor4f _ _ _ _ | glColor3f _ _ _ | glVertex3fv _
    | glVertex2f _ _ | glTexCoord2f _ _ => Some s
    | _ => None
    end
  else
    match call with
    | glEnd | glVertex3fv _ | glVertex2f _ _ | glTexCoord2f _ _ => None
    | glBegin _ => Some (gl_set_begin true s)
    | glEnable cap => Some (gl_set_cap cap true s)
    | glDisable cap => Some (gl_set_cap cap false s)
    | glMatrixMode mode =>
        match mode with
        | GL_MODELVIEW | GL_PROJECTION => Some (gl_set_mode mode s)
        | _ => None
        end
    | glPushMatrix =>
        match gl_matrix_mode s with
        | GL_MODELVIEW =>
            if gl_modelview_pushed s <? 31 then
              Some (gl_set_pushed (S (gl_modelview_pushed s))
                                  (gl_projection_pushed s) s)
            else None
        | _ =>
            if gl_projection_pushed s <? 1 then
              Some (gl_set_pushed (gl_modelview_pushed s)
                                  (S (gl_projection_pushed s)) s)
            else None
        end
    | glPopMatrix =>
        match gl_matrix_mode s with
        | GL_MODELVIEW =>
            match gl_modelview_pushed s with
            | O => None
            | S n => Some (gl_set_pushed n (gl_projection_pushed s) s)
            end
        | _ =>
            match gl_projection_pushed s with
            | O => None
            | S n => Some (gl_set_pushed (gl_modelview_pushed s) n s)
            end
        end
    | glGenTextures _ returned =>
        if existsb (Z.eqb returned) (gl_textures s) then None
        else Some (gl_set_textures (returned :: gl_textures s) s)
    | glDeleteTextures textures =>
        Some (gl_set_textures
                (filter (fun t => negb (existsb (Z.eqb t) textures))
                        (gl_textures s)) s)
    | _ => Some s
    end.

(** A sequence of calls, stopped by the first error. *)
Fixpoint gl_run {T : Type} (s : GLState) (calls : list (Call T))
  : option GLState :=
  match calls with
  | [] => Some s
  | call :: rest =>
      match gl_step s call with
      | Some s' => gl_run s' rest
      | None => None
      end
  end.

(** ** Geometry of the cube, on the reals *)

(** Squared Euclidean distance of two points given as coordinate lists. *)
Fixpoint sqdist (u v : list R) : R :=
  match u, v with
  | a :: u', b :: v' => (Rsqr (a - b) + sqdist u' v')%R
  | _, _ => 0%R
  end.

(** Vertex [i] of the cube of half side [s]. *)
Definition cube_vertex {T : Type} {draw : PyNumDraw T} (s : T) (i : nat)
  : list T :=
  nth i (cube_vertices s) [].

(** The corners sent for one face, and for one edge. *)
Definition face_corners {T : Type} {draw : PyNumDraw T} (s : T)
  (face : nat * nat * nat * nat * (Z * Z * Z)) : list (list T) :=
  map (cube_vertex s) (face_indices face).

Definition edge_corners {T : Type} {draw : PyNumDraw T} (s : T)
  (edge : nat * nat) : list (list T) :=
  [cube_vertex s (fst edge); cube_vertex s (snd edge)].

(** The vertices a call list sends through [glVertex3fv]. *)
Fixpoint sent_vertices {T : Type} (calls : list (Call T)) : list (list T) :=
  match calls with
  | [] => []
  | glVertex3fv v :: rest => v :: sent_vertices rest
  | _ :: rest => sent_vertices rest
  end.

(** A turn with a quit request: a QUIT event, or Escape pressed. *)
Definition quit_event (event : Event) : bool :=
  match type event with
  | QUIT => true
  | KEYDOWN => (key event =? K_ESCAPE)%Z
  | OtherEvent => false
  end.

(** The texts an overlay draws, with their positions. *)
Fixpoint drawn_texts {T : Type} (calls : list (OverlayCall T))
  : list (string * (Z * Z)) :=
  match calls with
  | [] => []
  | cv2_putText text org _ _ _ _ :: rest => (text, org) :: drawn_texts rest
  | _ :: rest => drawn_texts rest
  end.

(** The lines that are not blank, each with the position its index in
    [lines] gives it: 24 pixels further down per line, blank or not. *)
Definition laid_out (lines : list string) (y_offset : Z)
  : list (string * (Z * Z)) :=
  map (fun p => (snd p, (20, y_offset + 24 * Z.of_nat (fst p))%Z))
      (filter (fun p => negb (String.eqb (snd p) ""))
              (combine (seq 0 (List.length lines)) lines)).

(** The roles the code ever writes. *)
Definition roles_well_formed {T : Type} (self : ARCubeController T) : Prop :=
  (control_hand self = None \/ control_hand self = Some "left"%string)
  /\ (rotation_hand self = None \/ rotation_hand self = Some "right"%string).

(** A frame whose rotation hand, if any, has its wrist inside the
    image: normalized coordinates between 0 and 1. *)
Definition wrist_in_frame (results : SolutionOutputs R) : Prop :=
  forall (l : option (list (Landmark R))) (wrist : Landmark R)
         (rest : list (Landmark R)),
    detected_hands results = Ok (l, Some (wrist :: rest)) ->
    (0 <= x wrist <= 1 /\ 0 <= y wrist <= 1)%R.

(** Pitch within a quarter turn and yaw within a half turn, for the
    current angles and for their targets. *)
Definition rotation_in_range (self : ARCubeController R) : Prop :=
  (- 90 <= rotation_x self <= 90 /\ - 90 <= target_rotation_x self <= 90
   /\ - 180 <= rotation_y self <= 180
   /\ - 180 <= target_rotation_y self <= 180)%R.

(** A landmark moved by [(a, b)], and a landmark mirrored left to right
    (as [main] flips each frame before it is processed). *)
Definition translate (a b : R) (p : Landmark R) : Landmark R :=
  {| x := (x p + a)%R; y := (y p + b)%R |}.

Definition mirror (p : Landmark R) : Landmark R :=
  {| x := (1 - x p)%R; y := y p |}.

(** ** Facts about one frame, in any number model *)

Section FrameFacts.

Context {T : Type} {num : PyNum T}.
Local Open Scope py_scope.
Implicit Types (self : ARCubeController T) (results : SolutionOutputs T).
Implicit Types (h : list (Landmark T)) (l r : option (list (Landmark T))).

Lemma bind_ok (A B : Type) (m : result A) (k : A -> result B) (b : B) :
  bind m k = Ok b -> exists a, m = Ok a /\ k a = Ok b.
Proof.
  destruct m as [a|e]; simpl; intros H; [exists a; auto | discriminate].
Qed.

Lemma getitem_ok (A : Type) (seq : list A) (i : nat) :
  i < List.length seq -> exists a, getitem seq i = Ok a /\ nth_error seq i = Some a.
Proof.
  intros Hi. unfold getitem.
  destruct (nth_error seq i) as [a|] eqn:E.
  - exists a; auto.
  - apply nth_error_None in E. lia.
Qed.

Lemma getitem_raise (A : Type) (seq : list A) (i : nat) :
  List.length seq <= i -> getitem seq i = Raise IndexError.
Proof.
  intros Hi. unfold getitem.
  apply nth_error_None in Hi. now rewrite Hi.
Qed.

Lemma get_hand_position_cons (w : Landmark T) (rest : list (Landmark T)) :
  get_hand_position (w :: rest) = Ok (x w, y w).
Proof. reflexivity. Qed.

Lemma get_hand_position_nil :
  get_hand_position (@nil (Landmark T)) = Raise IndexError.
Proof. reflexivity. Qed.

Lemma update_scale_from_palm_eq self h :
  update_scale_from_palm self h =
  (o <- calculate_palm_openness h ;; Ok (with_scale_target o self)).
Proof. reflexivity. Qed.

Lemma update_rotation_from_hand_cons self (w : Landmark T) rest :
  update_rotation_from_hand self (w :: rest) = Ok (with_rotation_target w self).
Proof. reflexivity. Qed.

Lemma truthy_opt_true (A : Type) (o : option (list A)) :
  truthy_opt o = true -> exists w rest, o = Some (w :: rest).
Proof.
  destruct o as [[|w rest]|]; simpl; try discriminate.
  intros _. now exists w, rest.
Qed.

Lemma control_scheme_outcome self l r (self' : ARCubeController T) :
  control_scheme self l r = Ok self' <-> scheme_outcome self l r self'.
Proof.
  unfold control_scheme. split.
  - destruct (truthy_opt l) eqn:El, (truthy_opt r) eqn:Er; simpl.
    + destruct (truthy_opt_true _ Er) as (w & rest & ->).
      rewrite update_scale_from_palm_eq. intros H.
      apply bind_ok in H. destruct H as (s1 & H1 & H2).
      apply bind_ok in H1. destruct H1 as (o & Ho & Hs1).
      injection Hs1 as <-. simpl in H2. injection H2 as <-.
      now apply outcome_both with (rest := rest).
    + rewrite update_scale_from_palm_eq. intros H.
      apply bind_ok in H. destruct H as (o & Ho & Hs1).
      injection Hs1 as <-. now apply outcome_left.
    + destruct (truthy_opt_true _ Er) as (w & rest & ->).
      simpl. intros H. injection H as <-.
      now apply outcome_right with (rest := rest).
    + intros H. injection H as <-. now apply outcome_none.
  - intros H. destruct H as [o w rest Hl -> Ho | o Hl Hr Ho | w rest Hl -> | Hl Hr].
    + rewrite Hl. simpl. rewrite update_scale_from_palm_eq, Ho. reflexivity.
    + rewrite Hl, Hr. simpl. rewrite update_scale_from_palm_eq, Ho. reflexivity.
    + rewrite Hl. reflexivity.
    + rewrite Hl, Hr. reflexivity.
Qed.

Lemma hand_pairs_not_reported results :
  hands_reported results = false -> hand_pairs results = [].
Proof. unfold hand_pairs. now intros ->. Qed.

Lemma process_hands_not_reported self results :
  hands_reported results = false ->
  process_hands self results = Ok (apply_smoothing (with_roles None None self)).
Proof.
  unfold process_hands, hands_reported. now intros ->.
Qed.

Lemma process_hands_reported self results :
  hands_reported results = true ->
  process_hands self results =
  (hs <- detected_hands results ;;
   self1 <- control_scheme self (fst hs) (snd hs) ;;
   Ok (apply_smoothing self1)).
Proof.
  unfold process_hands, detected_hands, hand_pairs. intros E.
  rewrite E. unfold hands_reported in E. now rewrite E.
Qed.

(** The outcome of a frame: either no hand was reported, or the control
    scheme ran on the hands the loop kept; smoothing follows in both. *)
Lemma process_hands_ok self results (self' : ARCubeController T) :
  process_hands self results = Ok self' ->
  exists l r,
    detected_hands results = Ok (l, r) /\
    ((hands_reported results = false /\ l = None /\ r = None /\
      self' = apply_smoothing (with_roles None None self))
     \/
     (hands_reported results = true /\
      exists self1, scheme_outcome self l r self1 /\
                    self' = apply_smoothing self1)).
Proof.
  destruct (hands_reported results) eqn:E.
  - rewrite (process_hands_reported _ _ E). intros H.
    apply bind_ok in H. destruct H as ([l r] & Hd & H).
    apply bind_ok in H. destruct H as (self1 & Hc & H).
    injection H as <-. exists l, r. split; [exact Hd|]. right.
    split; [reflexivity|]. exists self1. split; [|reflexivity].
    now apply control_scheme_outcome.
  - rewrite (process_hands_not_reported _ _ E). intros H. injection H as <-.
    exists None, None. unfold detected_hands.
    rewrite (hand_pairs_not_reported _ E). simpl. split; [reflexivity|].
    left. auto.
Qed.

End FrameFacts.

(** ** The loop over the reported hands *)

Section Scan.

Context {T : Type} {num : PyNum T}.
Implicit Types (self : ARCubeController T) (results : SolutionOutputs T).
Implicit Types (pairs : list (NormalizedLandmarkList T * ClassificationList)).
Implicit Types (l r : option (list (Landmark T))).

(** The loop keeps, for each of the two labels, the last hand carrying
    it, and otherwise the value it started from. *)
Lemma scan_hands_last pairs : forall l r,
  Forall (fun p => label_of p <> None) pairs ->
  scan_hands pairs l r =
  Ok (match last_labelled "Left" pairs with Some h => Some h | None => l end,
      match last_labelled "Right" pairs with Some h => Some h | None => r end).
Proof.
  induction pairs as [|[hl hd] rest IH]; intros l r Hall.
  - reflexivity.
  - inversion Hall as [|p ps Hp Hrest]; subst. clear Hall.
    unfold label_of in Hp. cbn [scan_hands last_labelled].
    unfold has_label, label_of. cbn [snd fst] in *.
    destruct (classification hd) as [|c cs]; [congruence|].
    cbn [getitem nth_error bind].
    destruct (String.eqb (label c) "Left") eqn:EL.
    + apply String.eqb_eq in EL. rewrite EL. cbn [String.eqb Ascii.eqb Bool.eqb].
      rewrite (IH _ _ Hrest).
      destruct (last_labelled "Left" rest), (last_labelled "Right" rest);
        reflexivity.
    + destruct (String.eqb (label c) "Right") eqn:ER;
        rewrite (IH _ _ Hrest);
        destruct (last_labelled "Left" rest), (last_labelled "Right" rest);
        reflexivity.
Qed.

Lemma last_labelled_app lbl pairs (p : NormalizedLandmarkList T * ClassificationList)
  post :
  has_label lbl p = true ->
  Forall (fun q => has_label lbl q = false) post ->
  last_labelled lbl (pairs ++ p :: post) = Some (landmark (fst p)).
Proof.
  intros Hp Hpost.
  assert (Hnone : last_labelled lbl post = None).
  { induction Hpost as [|q qs Hq _ IH]; [reflexivity|].
    cbn [last_labelled]. now rewrite IH, Hq. }
  induction pairs as [|q qs IH]; cbn [app last_labelled].
  - now rewrite Hnone, Hp.
  - now rewrite IH.
Qed.

Lemma last_labelled_none lbl pairs :
  last_labelled lbl pairs = None <-> existsb (has_label lbl) pairs = false.
Proof.
  induction pairs as [|p rest IH]; cbn [last_labelled existsb].
  - tauto.
  - destruct (last_labelled lbl rest) as [h|].
    + split; [discriminate|]. intros E. apply orb_false_elim in E.
      destruct E as [_ E]. apply IH in E. discriminate.
    + destruct IH as [IH _]. rewrite (IH eq_refl), orb_false_r.
      destruct (has_label lbl p); split; congruence.
Qed.

Lemma last_labelled_valid lbl pairs (h : list (Landmark T)) :
  Forall valid_hand pairs -> last_labelled lbl pairs = Some h ->
  List.length h = 21.
Proof.
  induction 1 as [|p rest Hp _ IH]; cbn [last_labelled]; [discriminate|].
  destruct (last_labelled lbl rest) as [h'|]; [exact IH|].
  destruct (has_label lbl p); [|discriminate].
  intros E. injection E as <-. apply Hp.
Qed.

Lemma truthy_length (A : Type) (seq : list A) :
  0 < List.length seq -> truthy seq = true.
Proof. destruct seq; simpl; [lia|reflexivity]. Qed.

Lemma truthy_last_labelled lbl pairs :
  Forall valid_hand pairs ->
  truthy_opt (last_labelled lbl pairs) = existsb (has_label lbl) pairs.
Proof.
  intros Hv. destruct (last_labelled lbl pairs) as [h|] eqn:E.
  - cbn [truthy_opt]. rewrite truthy_length
      by (rewrite (last_labelled_valid _ Hv E); lia).
    destruct (existsb (has_label lbl) pairs) eqn:Ex; [reflexivity|].
    apply last_labelled_none in Ex. congruence.
  - apply last_labelled_none in E. now rewrite E.
Qed.

Lemma valid_hand_labelled pairs :
  Forall valid_hand pairs -> Forall (fun p => label_of p <> None) pairs.
Proof.
  apply Forall_impl. intros p [_ [H|H]]; rewrite H; discriminate.
Qed.

Lemma valid_hand_has_label (p : NormalizedLandmarkList T * ClassificationList) :
  valid_hand p -> has_label "Left" p || has_label "Right" p = true.
Proof.
  intros [_ [H|H]]; unfold has_label; rewrite H; reflexivity.
Qed.

Lemma hand_pairs_reported results :
  hands_reported results = true -> hand_pairs results <> [].
Proof.
  unfold hand_pairs, hands_reported. intros E. rewrite E.
  apply andb_prop in E. destruct E as [E1 E2].
  destruct (truthy_opt_true _ E1) as (a & la & ->).
  destruct (truthy_opt_true _ E2) as (b & lb & ->).
  discriminate.
Qed.

End Scan.

(** ** Indexing faults of the feature extractors *)

Section Faults.

Context {T : Type} {num : PyNum T}.
Implicit Types (h : list (Landmark T)).

Lemma getitem_cases (A : Type) (seq : list A) (i : nat) :
  (exists a, getitem seq i = Ok a) \/ getitem seq i = Raise IndexError.
Proof.
  unfold getitem. destruct (nth_error seq i) as [a|]; [left; now exists a|now right].
Qed.

Lemma calculate_palm_openness_total h :
  21 <= List.length h -> exists o, calculate_palm_openness h = Ok o.
Proof.
  intros Hlen. unfold calculate_palm_openness.
  destruct (getitem_ok h (i := 0)) as (c & -> & _); [lia|].
  destruct (getitem_ok h (i := 4)) as (t1 & -> & _); [lia|].
  destruct (getitem_ok h (i := 8)) as (t2 & -> & _); [lia|].
  destruct (getitem_ok h (i := 12)) as (t3 & -> & _); [lia|].
  destruct (getitem_ok h (i := 16)) as (t4 & -> & _); [lia|].
  destruct (getitem_ok h (i := 20)) as (t5 & -> & _); [lia|].
  cbn [bind]. eexists. reflexivity.
Qed.

Lemma calculate_palm_openness_short h :
  List.length h < 21 -> calculate_palm_openness h = Raise IndexError.
Proof.
  intros Hlen. unfold calculate_palm_openness.
  rewrite (getitem_raise h (i := 20)) by lia.
  destruct (getitem_cases h 0) as [[a ->]| ->]; [|reflexivity].
  destruct (getitem_cases h 4) as [[a1 ->]| ->]; [|reflexivity].
  destruct (getitem_cases h 8) as [[a2 ->]| ->]; [|reflexivity].
  destruct (getitem_cases h 12) as [[a3 ->]| ->]; [|reflexivity].
  destruct (getitem_cases h 16) as [[a4 ->]| ->]; reflexivity.
Qed.

(** Indexing below [n] does not see what lies beyond the first [n]
    items. *)
Lemma getitem_firstn (A : Type) (seq : list A) : forall n i : nat,
  i < n -> getitem (firstn n seq) i = getitem seq i.
Proof.
  unfold getitem. induction seq as [|a s IH]; intros n i Hi.
  - destruct n; reflexivity.
  - destruct n as [|n]; [lia|]. destruct i as [|i]; [reflexivity|].
    cbn [firstn nth_error]. apply IH. lia.
Qed.

Lemma calculate_palm_openness_firstn h :
  calculate_palm_openness h = calculate_palm_openness (firstn 21 h).
Proof.
  unfold calculate_palm_openness. rewrite !getitem_firstn by lia.
  reflexivity.
Qed.

End Faults.

(** ** Role-gated targets *)

Section Gating.

Context {T : Type} {num : PyNum T}.
Implicit Types (self : ARCubeController T) (results : SolutionOutputs T).
Implicit Types (l r : option (list (Landmark T))).

Lemma apply_smoothing_targets self :
  target_scale (apply_smoothing self) = target_scale self
  /\ target_rotation_x (apply_smoothing self) = target_rotation_x self
  /\ target_rotation_y (apply_smoothing self) = target_rotation_y self
  /\ control_hand (apply_smoothing self) = control_hand self
  /\ rotation_hand (apply_smoothing self) = rotation_hand self.
Proof. repeat split. Qed.

Lemma scheme_outcome_left_absent self l r (self1 : ARCubeController T) :
  scheme_outcome self l r self1 ->
  truthy_opt l = false \/ control_hand self1 = None ->
  target_scale self1 = target_scale self.
Proof.
  intros [o w rest Hl Hr Ho | o Hl Hr Ho | w rest Hl Hr | Hl Hr] [H|H];
    cbn in H |- *; congruence.
Qed.

Lemma scheme_outcome_right_absent self l r (self1 : ARCubeController T) :
  scheme_outcome self l r self1 ->
  truthy_opt r = false \/ rotation_hand self1 = None ->
  target_rotation_x self1 = target_rotation_x self
  /\ target_rotation_y self1 = target_rotation_y self.
Proof.
  intros [o w rest Hl Hr Ho | o Hl Hr Ho | w rest Hl Hr | Hl Hr] [H|H];
    subst; cbn in H |- *; try discriminate; auto.
Qed.

End Gating.

(** C1 (freeze invariant).  In a frame that [process_hands] completes,
    if no Left hand drives the size (the loop kept no non-empty Left
    hand, or the size-control role [control_hand] is [None] after the
    frame) then [target_scale] is the very value it was before the frame;
    and if no Right hand drives the rotation (no non-empty Right hand
    kept, or [rotation_hand] is [None] after the frame) then
    [target_rotation_x] and [target_rotation_y] are the values they were
    before.  This holds in every number model, binary64 included. *)
Theorem freeze_targets_without_role (T : Type) (num : PyNum T)
  (self self' : ARCubeController T) (results : SolutionOutputs T)
  (left_hand right_hand : option (list (Landmark T))) :
  detected_hands results = Ok (left_hand, right_hand) ->
  process_hands self results = Ok self' ->
  (truthy_opt left_hand = false \/ control_hand self' = None ->
   target_scale self' = target_scale self)
  /\ (truthy_opt right_hand = false \/ rotation_hand self' = None ->
      target_rotation_x self' = target_rotation_x self
      /\ target_rotation_y self' = target_rotation_y self).
Proof.
  intros Hd Hp.
  destruct (process_hands_ok _ _ Hp)
    as (l & r & Hd' & [(E & -> & -> & ->) | (E & self1 & Ho & ->)]).
  - split; intros _; repeat split.
  - rewrite Hd in Hd'. injection Hd' as <- <-.
    destruct (apply_smoothing_targets self1) as (-> & -> & -> & -> & ->).
    split; intros H.
    + now apply (scheme_outcome_left_absent Ho).
    + now apply (scheme_outcome_right_absent Ho).
Qed.

(** A frame with a Right hand only, run on binary64 from the initial
    state: the scale target stays at its initial value. *)
Lemma freeze_targets_without_role_witness :
  exists self' : ARCubeController float,
    process_hands init
      (frame_of [(hand_of 21 (point 75 50 100) (point 75 25 100), "Right"%string)])
    = Ok self'
    /\ target_scale self' = target_scale (init (T := float)).
Proof.
  eexists. split.
  - vm_compute. reflexivity.
  - apply (@freeze_targets_without_role float _ init _
             (frame_of
                [(hand_of 21 (point 75 50 100) (point 75 25 100), "Right"%string)])
             None
             (Some (hand_of 21 (point 75 50 100) (point 75 25 100)))).
    + vm_compute. reflexivity.
    + vm_compute. reflexivity.
    + left. reflexivity.
Defined.

(** C8 (duplicates: the later hand wins).  When every reported hand
    carries a classification, the loop of [process_hands] ends with
    [left_hand] and [right_hand] holding the landmarks of the last pair
    labelled "Left" and of the last pair labelled "Right" (a pair that no
    later pair of the same label follows), without raising; and the
    frame's outcome is the control scheme run on exactly these two, so an
    earlier hand of a repeated label takes no part in it. *)
Theorem last_hand_per_label_wins (T : Type) (num : PyNum T)
  (results : SolutionOutputs T) :
  Forall (fun p => label_of p <> None) (hand_pairs results) ->
  detected_hands results =
    Ok (last_labelled "Left" (hand_pairs results),
        last_labelled "Right" (hand_pairs results))
  /\ (forall lbl pre p post,
        hand_pairs results = pre ++ p :: post ->
        has_label lbl p = true ->
        Forall (fun q => has_label lbl q = false) post ->
        last_labelled lbl (hand_pairs results) = Some (landmark (fst p)))
  /\ (forall self : ARCubeController T,
        process_hands self results =
        if hands_reported results then
          self1 <- control_scheme self
                     (last_labelled "Left" (hand_pairs results))
                     (last_labelled "Right" (hand_pairs results)) ;;
          Ok (apply_smoothing self1)
        else Ok (apply_smoothing (with_roles None None self))).
Proof.
  intros Hall.
  assert (Hd : detected_hands results =
               Ok (last_labelled "Left" (hand_pairs results),
                   last_labelled "Right" (hand_pairs results))).
  { unfold detected_hands. rewrite (scan_hands_last _ _ Hall).
    destruct (last_labelled "Left" (hand_pairs results)),
             (last_labelled "Right" (hand_pairs results)); reflexivity. }
  split; [exact Hd|]. split.
  - intros lbl pre p post -> Hp Hpost. now apply last_labelled_app.
  - intros self. destruct (hands_reported results) eqn:E.
    + rewrite (process_hands_reported _ _ E), Hd. reflexivity.
    + now apply process_hands_not_reported.
Qed.

(** Two Left hands in one frame, on binary64: the second one is kept. *)
Lemma last_hand_per_label_wins_witness :
  detected_hands
    (frame_of [(hand_of 21 (point 50 50 100) (point 50 25 100), "Left"%string);
               (hand_of 21 (point 20 50 100) (point 20 45 100), "Left"%string)])
  = Ok (Some (hand_of 21 (point 20 50 100) (point 20 45 100)),
        @None (list (Landmark float))).
Proof.
  refine (eq_trans
    (proj1 (@last_hand_per_label_wins float _
       (frame_of [(hand_of 21 (point 50 50 100) (point 50 25 100), "Left"%string);
                  (hand_of 21 (point 20 50 100) (point 20 45 100), "Left"%string)])
       _)) _).
  - repeat constructor; discriminate.
  - vm_compute. reflexivity.
Defined.

(** C7, as the code has it.  The feature extractors check no keypoint
    count; what they signal is the [IndexError] of an index past the end,
    which reaches the caller.  [calculate_palm_openness] raises it for
    every hand of fewer than 21 keypoints; a hand of 21 keypoints or more
    is not told from the hand of its first 21 keypoints (same result,
    value or exception) and raises no [IndexError].  [get_hand_position]
    raises it for the hand without keypoints and returns the wrist
    coordinates of every other hand.  So no hand of 21 keypoints is
    rejected for its keypoint count, and none of more than 21 either. *)
Theorem index_faults_by_keypoint_count (T : Type) (num : PyNum T)
  (hand_landmarks : list (Landmark T)) :
  (List.length hand_landmarks < 21 ->
   calculate_palm_openness hand_landmarks = Raise IndexError)
  /\ (21 <= List.length hand_landmarks ->
      calculate_palm_openness hand_landmarks
      = calculate_palm_openness (firstn 21 hand_landmarks)
      /\ calculate_palm_openness hand_landmarks <> Raise IndexError)
  /\ (List.length hand_landmarks = 0 ->
      get_hand_position hand_landmarks = Raise IndexError)
  /\ (1 <= List.length hand_landmarks ->
      exists wrist rest, hand_landmarks = wrist :: rest
        /\ get_hand_position hand_landmarks = Ok (x wrist, y wrist)).
Proof.
  split; [apply calculate_palm_openness_short|].
  split; [|split].
  - intros Hlen. split.
    + apply calculate_palm_openness_firstn.
    + destruct (calculate_palm_openness_total hand_landmarks Hlen) as (o & ->).
      discriminate.
  - destruct hand_landmarks; [reflexivity|discriminate].
  - destruct hand_landmarks as [|w rest]; cbn [List.length]; [lia|].
    intros _. exists w, rest. split; reflexivity.
Qed.

(** A hand of 20 keypoints on binary64: openness faults, the position
    does not. *)
Lemma index_faults_by_keypoint_count_witness :
  calculate_palm_openness
    (hand_of 20 (point 50 50 100) (point 50 25 100) : list (Landmark float))
  = Raise IndexError.
Proof.
  apply (proj1 (@index_faults_by_keypoint_count float _
                  (hand_of 20 (point 50 50 100) (point 50 25 100)))).
  vm_compute. reflexivity.
Defined.

(** C7 as stated fails: a hand of 22 keypoints (one too many) goes
    through both extractors without any fault, and so does a hand of one
    keypoint through [get_hand_position]. *)
Lemma keypoint_count_mismatch_tolerated :
  List.length (hand_of 22 (point 50 50 100) (point 50 50 100) : list (Landmark float))
    <> 21
  /\ calculate_palm_openness
       (hand_of 22 (point 50 50 100) (point 50 50 100) : list (Landmark float))
     = Ok 0%float
  /\ get_hand_position
       (hand_of 22 (point 50 50 100) (point 50 50 100) : list (Landmark float))
     = Ok (0.5%float, 0.5%float)
  /\ get_hand_position
       (hand_of 1 (point 50 50 100) (point 50 50 100) : list (Landmark float))
     = Ok (0.5%float, 0.5%float).
Proof.
  split; [vm_compute; discriminate|].
  repeat split; vm_compute; reflexivity.
Qed.

(** ** Role assignment *)

Section Roles.

Context {T : Type} {num : PyNum T}.
Implicit Types (self : ARCubeController T) (results : SolutionOutputs T).
Implicit Types (l r : option (list (Landmark T))).

(** With hands of 21 keypoints the control scheme raises nothing. *)
Lemma control_scheme_total self l r :
  (forall h, l = Some h -> List.length h = 21) ->
  exists self1, control_scheme self l r = Ok self1.
Proof.
  intros Hl. unfold control_scheme.
  destruct (truthy_opt l) eqn:El.
  - destruct (truthy_opt_true _ El) as (w & rest & ->).
    destruct (@calculate_palm_openness_total T num (w :: rest)) as (o & Ho).
    { rewrite (Hl _ eq_refl). lia. }
    cbn [andb seq_of]. rewrite update_scale_from_palm_eq, Ho. cbn [bind].
    destruct (truthy_opt r) eqn:Er.
    + destruct (truthy_opt_true _ Er) as (w' & rest' & ->).
      eexists. reflexivity.
    + rewrite update_scale_from_palm_eq, Ho. eexists. reflexivity.
  - cbn [andb]. destruct (truthy_opt r) eqn:Er.
    + destruct (truthy_opt_true _ Er) as (w' & rest' & ->).
      eexists. reflexivity.
    + eexists. reflexivity.
Qed.

Lemma scheme_outcome_roles self l r (self1 : ARCubeController T) :
  scheme_outcome self l r self1 ->
  truthy_opt l || truthy_opt r = true ->
  (control_hand self1, rotation_hand self1)
  = spec_assign_roles (truthy_opt l) (truthy_opt r).
Proof.
  intros [o w rest Hl Hr Ho | o Hl Hr Ho | w rest Hl Hr | Hl Hr] Hany; subst;
    try rewrite Hl; try rewrite Hr; try reflexivity.
  rewrite Hl, Hr in Hany. discriminate.
Qed.

(** The roles after a frame of well-formed hands. *)
Lemma process_hands_roles self results :
  Forall valid_hand (hand_pairs results) ->
  exists self',
    process_hands self results = Ok self'
    /\ (control_hand self', rotation_hand self')
       = spec_assign_roles
           (existsb (has_label "Left") (hand_pairs results))
           (existsb (has_label "Right") (hand_pairs results)).
Proof.
  intros Hv. destruct (hands_reported results) eqn:E.
  - rewrite (process_hands_reported _ _ E). unfold detected_hands.
    rewrite (scan_hands_last _ _ (valid_hand_labelled Hv)).
    set (l := last_labelled "Left" (hand_pairs results)).
    set (r := last_labelled "Right" (hand_pairs results)).
    replace (match l with Some h => Some h | None => None end) with l
      by now destruct l.
    replace (match r with Some h => Some h | None => None end) with r
      by now destruct r.
    cbn [bind fst snd].
    destruct (control_scheme_total self (l := l) r) as (self1 & H1).
    { intros h Hh. exact (last_labelled_valid _ Hv Hh). }
    rewrite H1. cbn [bind]. exists (apply_smoothing self1).
    split; [reflexivity|].
    apply control_scheme_outcome in H1.
    rewrite <- (truthy_last_labelled "Left" Hv).
    rewrite <- (truthy_last_labelled "Right" Hv).
    fold l r.
    change (control_hand (apply_smoothing self1)) with (control_hand self1).
    change (rotation_hand (apply_smoothing self1)) with (rotation_hand self1).
    apply (scheme_outcome_roles H1).
    unfold l, r. rewrite !(truthy_last_labelled _ Hv).
    pose proof (hand_pairs_reported _ E) as Hne.
    destruct (hand_pairs results) as [|p ps]; [congruence|].
    inversion Hv as [|p' ps' Hp Hps]; subst. cbn [existsb].
    destruct (orb_prop _ _ (valid_hand_has_label Hp)) as [-> | ->];
      cbn [orb]; [reflexivity|apply orb_true_r].
  - rewrite (process_hands_not_reported _ _ E).
    rewrite (hand_pairs_not_reported _ E).
    eexists. split; reflexivity.
Qed.

End Roles.

(** C2 (role assignment).  On a frame of well-formed hands (21
    keypoints each, labelled "Left" or "Right"), [process_hands] completes
    and leaves in [control_hand] and [rotation_hand] exactly the roles the
    specification tabulates from the presence of a Left and of a Right
    label: both, Left only, Right only, none.  The roles depend on nothing
    else: any other state and any other well-formed frame with the same
    labels present get the same roles. *)
Theorem roles_from_label_set (T : Type) (num : PyNum T)
  (self : ARCubeController T) (results : SolutionOutputs T) :
  Forall valid_hand (hand_pairs results) ->
  exists self',
    process_hands self results = Ok self'
    /\ (control_hand self', rotation_hand self')
       = spec_assign_roles
           (existsb (has_label "Left") (hand_pairs results))
           (existsb (has_label "Right") (hand_pairs results))
    /\ forall (other : ARCubeController T) (results2 : SolutionOutputs T),
         Forall valid_hand (hand_pairs results2) ->
         existsb (has_label "Left") (hand_pairs results2)
         = existsb (has_label "Left") (hand_pairs results) ->
         existsb (has_label "Right") (hand_pairs results2)
         = existsb (has_label "Right") (hand_pairs results) ->
         exists other',
           process_hands other results2 = Ok other'
           /\ control_hand other' = control_hand self'
           /\ rotation_hand other' = rotation_hand self'.
Proof.
  intros Hv.
  destruct (process_hands_roles self _ Hv) as (self' & Hp & Hr).
  exists self'. split; [exact Hp|]. split; [exact Hr|].
  intros other results2 Hv2 EL ER.
  destruct (process_hands_roles other _ Hv2) as (other' & Hp2 & Hr2).
  exists other'. split; [exact Hp2|].
  rewrite EL, ER, <- Hr in Hr2. injection Hr2 as -> ->. split; reflexivity.
Qed.

(** A Left and a Right hand, on binary64, from the initial state. *)
Lemma roles_from_label_set_witness :
  exists self' : ARCubeController float,
    process_hands init
      (frame_of [(hand_of 21 (point 50 50 100) (point 50 25 100), "Left"%string);
                 (hand_of 21 (point 75 50 100) (point 75 25 100), "Right"%string)])
    = Ok self'
    /\ (control_hand self', rotation_hand self')
       = (Some "left"%string, Some "right"%string).
Proof.
  destruct (@roles_from_label_set float _ init
    (frame_of [(hand_of 21 (point 50 50 100) (point 50 25 100), "Left"%string);
               (hand_of 21 (point 75 50 100) (point 75 25 100), "Right"%string)]))
    as (self' & Hp & Hr & _).
  - constructor; [split; [reflexivity|left; reflexivity]|].
    constructor; [split; [reflexivity|right; reflexivity]|].
    constructor.
  - exists self'. split; [exact Hp|]. rewrite Hr. reflexivity.
Defined.

(** ** What a frame leaves alone, and what it smooths *)

Section Smoothing.

Context {T : Type} {num : PyNum T}.
Implicit Types (self : ARCubeController T) (results : SolutionOutputs T).
Implicit Types (l r : option (list (Landmark T))).

(** The control scheme writes roles and targets only. *)
Lemma scheme_outcome_keeps self l r (self1 : ARCubeController T) :
  scheme_outcome self l r self1 ->
  scale self1 = scale self
  /\ rotation_x self1 = rotation_x self
  /\ rotation_y self1 = rotation_y self
  /\ smooth_factor self1 = smooth_factor self
  /\ scale_min self1 = scale_min self
  /\ scale_max self1 = scale_max self
  /\ rotation_x_sensitivity self1 = rotation_x_sensitivity self
  /\ rotation_y_sensitivity self1 = rotation_y_sensitivity self.
Proof.
  intros [o w rest Hl Hr Ho | o Hl Hr Ho | w rest Hl Hr | Hl Hr];
    repeat split.
Qed.

(** The configuration is never written. *)
Lemma process_hands_config self results (self' : ARCubeController T) :
  process_hands self results = Ok self' ->
  smooth_factor self' = smooth_factor self
  /\ scale_min self' = scale_min self
  /\ scale_max self' = scale_max self
  /\ rotation_x_sensitivity self' = rotation_x_sensitivity self
  /\ rotation_y_sensitivity self' = rotation_y_sensitivity self.
Proof.
  intros Hp.
  destruct (process_hands_ok _ _ Hp)
    as (l & r & _ & [(_ & _ & _ & ->) | (_ & self1 & Ho & ->)]).
  - repeat split.
  - destruct (scheme_outcome_keeps Ho) as (_ & _ & _ & Hf & Hmin & Hmax & Hx & Hy).
    cbn. auto.
Qed.

(** Each frame smooths each of the three quantities once, from its value
    before the frame toward its target after the role-gated update. *)
Lemma process_hands_smooths (fld : Field) self results
  (self' : ARCubeController T) :
  process_hands self results = Ok self' ->
  current fld self' =
  smooth_value (current fld self) (target fld self') (smooth_factor self).
Proof.
  intros Hp.
  destruct (process_hands_ok _ _ Hp)
    as (l & r & _ & [(_ & _ & _ & ->) | (_ & self1 & Ho & ->)]).
  - destruct fld; reflexivity.
  - destruct (scheme_outcome_keeps Ho) as (Hs & Hx & Hy & Hf & _).
    destruct fld; cbn; rewrite Hf; [rewrite Hs | rewrite Hx | rewrite Hy];
      reflexivity.
Qed.

End Smoothing.

(** ** Exact arithmetic: the model on the reals *)

Section RealModel.

Local Open Scope R_scope.
Implicit Types (self : ARCubeController R) (results : SolutionOutputs R).
Implicit Types (c t f o : R).

Lemma lit_R (n d : Z) : lit (T := R) n d = IZR n / IZR d.
Proof. reflexivity. Qed.

Lemma py_max_R (a b : R) : py_max a b = Rmax a b.
Proof.
  unfold py_max, Rmax. cbn [nltb PyNum_R]. unfold Rltb.
  destruct (Rlt_dec a b), (Rle_dec a b); lra.
Qed.

Lemma py_min_R (a b : R) : py_min a b = Rmin a b.
Proof.
  unfold py_min, Rmin. cbn [nltb PyNum_R]. unfold Rltb.
  destruct (Rlt_dec b a), (Rle_dec a b); lra.
Qed.

Lemma smooth_value_R c t f : smooth_value c t f = c + (t - c) * f.
Proof. reflexivity. Qed.

(** *** One smoothing step *)

Lemma smooth_value_gap c t f :
  smooth_value c t f - t = (1 - f) * (c - t).
Proof. rewrite smooth_value_R. ring. Qed.

Lemma smooth_value_between c t f :
  0 < f < 1 ->
  Rmin c t <= smooth_value c t f <= Rmax c t.
Proof.
  intros Hf. rewrite smooth_value_R. unfold Rmin, Rmax.
  destruct (Rle_dec c t); nra.
Qed.

Lemma smooth_value_abs_gap c t f :
  0 < f < 1 ->
  Rabs (smooth_value c t f - t) = (1 - f) * Rabs (c - t).
Proof.
  intros Hf. rewrite smooth_value_gap, Rabs_mult.
  rewrite (Rabs_pos_eq (1 - f)) by lra. reflexivity.
Qed.

Lemma smooth_value_closer c t f :
  0 < f < 1 -> c <> t ->
  Rabs (smooth_value c t f - t) < Rabs (c - t).
Proof.
  intros Hf Hne. rewrite (smooth_value_abs_gap _ _ Hf).
  assert (0 < Rabs (c - t)) by (apply Rabs_pos_lt; lra).
  nra.
Qed.

(** *** Many frames with the target held *)

Lemma target_held_gap (fld : Field) t self (k : nat) self' :
  target_held fld t self k self' ->
  current fld self' - t = (1 - smooth_factor self) ^ k * (current fld self - t).
Proof.
  induction 1 as [self | self self1 self' results k Hp Ht Hrest IH].
  - simpl. ring.
  - rewrite IH.
    destruct (process_hands_config _ _ Hp) as (-> & _).
    rewrite (process_hands_smooths fld _ _ Hp), Ht, smooth_value_gap.
    simpl. ring.
Qed.

Lemma pow_below (q eps : R) :
  0 <= q < 1 -> 0 < eps -> exists N : nat, forall k, (N <= k)%nat -> q ^ k < eps.
Proof.
  intros Hq He.
  destruct (pow_lt_1_zero q) with (y := eps) as (N & HN).
  - rewrite Rabs_pos_eq; lra.
  - exact He.
  - exists N. intros k Hk. specialize (HN k Hk).
    rewrite Rabs_pos_eq in HN; [exact HN|]. apply pow_le. lra.
Qed.

End RealModel.

(** ** Reachable states and runs that hold a target *)

Section Runs.

Context {T : Type} {num : PyNum T}.
Implicit Types (self : ARCubeController T) (results : SolutionOutputs T).

Lemma reachable_config self :
  reachable self ->
  smooth_factor self = lit 15 100
  /\ scale_min self = lit 5 10
  /\ scale_max self = lit 50 10
  /\ rotation_x_sensitivity self = nofZ 180
  /\ rotation_y_sensitivity self = nofZ 360.
Proof.
  induction 1 as [|self self' results _ IH Hp].
  - repeat split.
  - destruct (process_hands_config _ _ Hp) as (-> & -> & -> & -> & ->).
    exact IH.
Qed.

Lemma process_hands_no_hands self :
  process_hands self no_hands = Ok (apply_smoothing (with_roles None None self)).
Proof. reflexivity. Qed.

(** Frames without hands hold every target where it is, for as long as
    one likes. *)
Lemma target_held_no_hands (fld : Field) (k : nat) : forall self,
  exists self', target_held fld (target fld self) self k self'.
Proof.
  induction k as [|k IH]; intros self.
  - exists self. constructor.
  - set (self1 := apply_smoothing (with_roles None None self)).
    assert (Ht : target fld self1 = target fld self) by (destruct fld; reflexivity).
    destruct (IH self1) as (self' & H). rewrite Ht in H.
    exists self'.
    eapply held_frame; [apply process_hands_no_hands | exact Ht | exact H].
Qed.

End Runs.

(** Smoothing in exact arithmetic.  For each of the three smoothed
    quantities and a smoothing factor strictly between 0 and 1 (as it is
    in every reachable state, where it is 0.15):
    - a frame that completes sets the current value to
      [current + (target - current) * smooth_factor], once, with the target
      as updated in that frame, and leaves the factor alone;
    - one step lands between the old value and the target (no overshoot),
      multiplies the gap to the target by exactly [1 - smooth_factor], and
      strictly shrinks it unless it was zero;
    - over [k] frames that hold the target at [t] the gap is
      [(1 - smooth_factor) ^ k] times the initial one, such runs exist for
      every [k], and the gap falls below any positive [eps] from some
      number of frames on. *)
Lemma smoothing_on_reals (fld : Field) (self : ARCubeController R) (t : R) :
  (0 < smooth_factor self < 1)%R ->
  (forall results self',
     process_hands self results = Ok self' ->
     current fld self'
     = (current fld self
        + (target fld self' - current fld self) * smooth_factor self)%R
     /\ smooth_factor self' = smooth_factor self)
  /\ (forall c : R,
        (Rmin c t <= smooth_value c t (smooth_factor self) <= Rmax c t)%R
        /\ Rabs (smooth_value c t (smooth_factor self) - t)
           = ((1 - smooth_factor self) * Rabs (c - t))%R
        /\ (c <> t ->
            (Rabs (smooth_value c t (smooth_factor self) - t) < Rabs (c - t))%R))
  /\ (forall (k : nat) self',
        target_held fld t self k self' ->
        Rabs (current fld self' - t)
        = ((1 - smooth_factor self) ^ k * Rabs (current fld self - t))%R)
  /\ (forall k : nat,
        exists self', target_held fld (target fld self) self k self')
  /\ (forall eps : R,
        (0 < eps)%R ->
        exists N : nat, forall (k : nat) self',
          N <= k -> target_held fld t self k self' ->
          (Rabs (current fld self' - t) < eps)%R)
  /\ (forall s : ARCubeController R,
        reachable s -> (0 < smooth_factor s < 1)%R).
Proof.
  intros Hf. repeat apply conj.
  - intros results self' Hp. split.
    + rewrite (process_hands_smooths fld _ _ Hp). reflexivity.
    + apply (process_hands_config _ _ Hp).
  - intros c. split; [|split].
    + now apply smooth_value_between.
    + now apply smooth_value_abs_gap.
    + now apply smooth_value_closer.
  - intros k self' Hheld.
    rewrite (target_held_gap Hheld), Rabs_mult.
    rewrite Rabs_pos_eq; [reflexivity|]. apply pow_le. lra.
  - intros k. apply target_held_no_hands.
  - intros eps Heps.
    set (g := Rabs (current fld self - t)).
    assert (Hg : (0 <= g)%R) by apply Rabs_pos.
    destruct (pow_below (q := (1 - smooth_factor self)%R)
                (eps := (eps / (g + 1))%R)) as (N & HN).
    + lra.
    + apply Rdiv_lt_0_compat; lra.
    + exists N. intros k self' Hk Hheld.
      rewrite (target_held_gap Hheld), Rabs_mult. fold g.
      rewrite Rabs_pos_eq by (apply pow_le; lra).
      specialize (HN k Hk).
      assert (Hq : (0 <= (1 - smooth_factor self) ^ k)%R) by (apply pow_le; lra).
      apply Rle_lt_trans
        with (r2 := ((1 - smooth_factor self) ^ k * (g + 1))%R); [nra|].
      apply (Rmult_lt_compat_r (g + 1)%R) in HN; [|lra].
      unfold Rdiv in HN. rewrite Rmult_assoc, Rinv_l in HN by lra.
      lra.
  - intros s Hs. destruct (reachable_config Hs) as (-> & _).
    rewrite lit_R. lra.
Qed.




(** ** Palm openness on the reals *)

Section Openness.

Local Open Scope R_scope.
Implicit Types (hand : list (Landmark R)).

Lemma getitem_keypoint hand (i : nat) :
  (i < List.length hand)%nat -> getitem hand i = Ok (keypoint hand i).
Proof.
  intros Hi. destruct (getitem_ok hand Hi) as (a & -> & Hn).
  unfold keypoint. now rewrite (nth_error_nth _ _ origin Hn).
Qed.

Lemma add_distance_R (palm_center tip : Landmark R) (total : R) :
  add_distance palm_center total tip
  = total + euclidean_distance palm_center tip.
Proof. reflexivity. Qed.

(** The value the code computes, in the words of the specification. *)
Lemma calculate_palm_openness_R hand :
  (21 <= List.length hand)%nat ->
  calculate_palm_openness hand
  = Ok (Rmax 0 (Rmin 1 ((avg_fingertip_distance hand - 10 / 100)
                        / (40 / 100 - 10 / 100)))).
Proof.
  intros Hlen. unfold calculate_palm_openness.
  rewrite !getitem_keypoint by lia. cbn [bind fold_left List.length].
  rewrite py_max_R, py_min_R, !add_distance_R, !lit_R.
  cbn [nofZ nadd nsub nmul ndiv PyNum_R Z.of_nat Pos.of_succ_nat Pos.succ].
  unfold avg_fingertip_distance.
  do 4 f_equal. lra.
Qed.

Lemma clamp_range (v : R) : 0 <= Rmax 0 (Rmin 1 v) <= 1.
Proof.
  unfold Rmax, Rmin. destruct (Rle_dec 1 v); destruct (Rle_dec 0 _); lra.
Qed.

(** The linear map of [[0.10, 0.40]] onto [[0, 1]]. *)
Lemma remap_linear (d : R) :
  (d - 10 / 100) / (40 / 100 - 10 / 100) = (d - 1 / 10) * (10 / 3).
Proof. field. Qed.

Lemma clamp_low (d : R) :
  d <= 10 / 100 ->
  Rmax 0 (Rmin 1 ((d - 10 / 100) / (40 / 100 - 10 / 100))) = 0.
Proof.
  intros Hd. rewrite remap_linear. unfold Rmax, Rmin.
  destruct (Rle_dec 1 _); destruct (Rle_dec 0 _); lra.
Qed.

Lemma clamp_high (d : R) :
  40 / 100 <= d ->
  Rmax 0 (Rmin 1 ((d - 10 / 100) / (40 / 100 - 10 / 100))) = 1.
Proof.
  intros Hd. rewrite remap_linear. unfold Rmax, Rmin.
  destruct (Rle_dec 1 _); destruct (Rle_dec 0 _); lra.
Qed.

Lemma clamp_inside (d : R) :
  10 / 100 <= d <= 40 / 100 ->
  Rmax 0 (Rmin 1 ((d - 10 / 100) / (40 / 100 - 10 / 100)))
  = (d - 10 / 100) / (30 / 100).
Proof.
  intros Hd. rewrite remap_linear.
  replace ((d - 10 / 100) / (30 / 100)) with ((d - 1 / 10) * (10 / 3)) by field.
  unfold Rmax, Rmin.
  destruct (Rle_dec 1 _); destruct (Rle_dec 0 _); lra.
Qed.

Lemma clamp_monotone (d1 d2 : R) :
  d1 <= d2 ->
  Rmax 0 (Rmin 1 ((d1 - 10 / 100) / (40 / 100 - 10 / 100)))
  <= Rmax 0 (Rmin 1 ((d2 - 10 / 100) / (40 / 100 - 10 / 100))).
Proof.
  intros Hd. rewrite !remap_linear.
  unfold Rmax, Rmin. repeat destruct (Rle_dec _ _); lra.
Qed.

(** Whatever the hand, a returned openness is clamped. *)
Lemma calculate_palm_openness_range hand (o : R) :
  calculate_palm_openness hand = Ok o -> 0 <= o <= 1.
Proof.
  intros H.
  destruct (Nat.lt_ge_cases (List.length hand) 21) as [Hlt|Hge].
  - rewrite (calculate_palm_openness_short _ Hlt) in H. discriminate.
  - rewrite (calculate_palm_openness_R _ Hge) in H. injection H as <-.
    apply clamp_range.
Qed.

End Openness.

(** A hand whose fingertips all lie a quarter of the frame above the
    wrist: the average fingertip distance is 0.25. *)
Lemma avg_fingertip_distance_quarter :
  avg_fingertip_distance (hand_of 21 (point 50 50 100) (point 50 25 100))
  = (25 / 100)%R.
Proof.
  unfold avg_fingertip_distance, keypoint, euclidean_distance.
  cbn [hand_of repeat nth point x y]. rewrite !lit_R.
  replace (50 / 100 - 50 / 100)%R with 0%R by lra.
  replace (25 / 100 - 50 / 100)%R with (- (25 / 100))%R by lra.
  rewrite Rsqr_0, Rplus_0_l, <- Rsqr_neg, sqrt_Rsqr by lra.
  lra.
Qed.



(** ** Rotation and scale targets *)

Section Targets.

Context {T : Type} {num : PyNum T}.
Local Open Scope py_scope.
Implicit Types (self : ARCubeController T) (results : SolutionOutputs T).
Implicit Types (l r : option (list (Landmark T))).

Lemma scheme_outcome_rotation self l (wrist : Landmark T)
  (rest : list (Landmark T)) (self1 : ARCubeController T) :
  scheme_outcome self l (Some (wrist :: rest)) self1 ->
  rotation_hand self1 = Some "right"%string
  /\ target_rotation_y self1
     = (x wrist - lit 5 10) * rotation_y_sensitivity self
  /\ target_rotation_x self1
     = (lit 5 10 - y wrist) * rotation_x_sensitivity self.
Proof.
  intros [o w rest' Hl Hr Ho | o Hl Hr Ho | w rest' Hl Hr | Hl Hr].
  - injection Hr as <- <-. repeat split.
  - discriminate Hr.
  - injection Hr as <- <-. repeat split.
  - discriminate Hr.
Qed.

Lemma scheme_outcome_scale self l r (self1 : ARCubeController T) :
  scheme_outcome self l r self1 ->
  truthy_opt l = true ->
  exists o, calculate_palm_openness (seq_of l) = Ok o
    /\ control_hand self1 = Some "left"%string
    /\ target_scale self1
       = scale_min self + o * (scale_max self - scale_min self).
Proof.
  intros [o w rest' Hl Hr Ho | o Hl Hr Ho | w rest' Hl Hr | Hl Hr] Ht;
    try congruence; exists o; repeat split; assumption.
Qed.

(** A frame with a non-empty Right hand recomputes both rotation
    targets from that hand's wrist. *)
Lemma process_hands_rotation self results l (wrist : Landmark T)
  (rest : list (Landmark T)) (self' : ARCubeController T) :
  detected_hands results = Ok (l, Some (wrist :: rest)) ->
  process_hands self results = Ok self' ->
  rotation_hand self' = Some "right"%string
  /\ target_rotation_y self'
     = (x wrist - lit 5 10) * rotation_y_sensitivity self
  /\ target_rotation_x self'
     = (lit 5 10 - y wrist) * rotation_x_sensitivity self.
Proof.
  intros Hd Hp.
  destruct (process_hands_ok _ _ Hp)
    as (l' & r' & Hd' & [(_ & -> & -> & _) | (_ & self1 & Ho & ->)]);
    rewrite Hd in Hd'; [discriminate|].
  injection Hd' as <- <-.
  exact (scheme_outcome_rotation Ho).
Qed.

(** A frame with a non-empty Left hand recomputes the scale target from
    that hand's openness. *)
Lemma process_hands_scale self results l r (self' : ARCubeController T) :
  detected_hands results = Ok (l, r) ->
  truthy_opt l = true ->
  process_hands self results = Ok self' ->
  exists o, calculate_palm_openness (seq_of l) = Ok o
    /\ control_hand self' = Some "left"%string
    /\ target_scale self'
       = scale_min self + o * (scale_max self - scale_min self).
Proof.
  intros Hd Ht Hp.
  destruct (process_hands_ok _ _ Hp)
    as (l' & r' & Hd' & [(_ & -> & -> & _) | (_ & self1 & Ho & ->)]);
    rewrite Hd in Hd'; injection Hd' as El Er; subst l r.
  - discriminate Ht.
  - exact (scheme_outcome_scale Ho Ht).
Qed.

(** Whatever the arithmetic, a returned openness went through
    [max(0.0, min(1.0, .))]: it is the literal 0, the literal 1, or a
    value that compared above 0 and below 1. *)
Lemma calculate_palm_openness_clamped (h : list (Landmark T)) (o : T) :
  calculate_palm_openness h = Ok o ->
  o = nofZ 0 \/ o = nofZ 1
  \/ ((nofZ 0 <? o) = true /\ (o <? nofZ 1) = true).
Proof.
  unfold calculate_palm_openness. intros H.
  destruct (getitem_cases h 0) as [[a0 E]|E]; rewrite E in H; [|discriminate H].
  destruct (getitem_cases h 4) as [[a1 E1]|E1]; rewrite E1 in H; [|discriminate H].
  destruct (getitem_cases h 8) as [[a2 E2]|E2]; rewrite E2 in H; [|discriminate H].
  destruct (getitem_cases h 12) as [[a3 E3]|E3]; rewrite E3 in H; [|discriminate H].
  destruct (getitem_cases h 16) as [[a4 E4]|E4]; rewrite E4 in H; [|discriminate H].
  destruct (getitem_cases h 20) as [[a5 E5]|E5]; rewrite E5 in H; [|discriminate H].
  cbn [bind] in H. injection H as <-.
  match goal with |- context [py_min (nofZ 1) ?v] => generalize v end.
  intros v. unfold py_max, py_min.
  destruct (v <? nofZ 1) eqn:Ev.
  - destruct (nofZ 0 <? v) eqn:E0; [right; right; now split | now left].
  - destruct (nofZ 0 <? nofZ 1); [right; now left | now left].
Qed.

Lemma process_single_right self (wrist : Landmark T) (rest : list (Landmark T)) :
  process_hands self (frame_of [(wrist :: rest, "Right"%string)])
  = Ok (apply_smoothing
          (with_rotation_target wrist
             (with_roles None (Some "right"%string) self))).
Proof. reflexivity. Qed.

End Targets.

(** C5 (rotation targets).  In every number model, a frame that
    completes and in which the loop kept a non-empty Right hand assigns
    the rotation role and sets
    [target_rotation_y = (x - 0.5) * rotation_y_sensitivity] and
    [target_rotation_x = (0.5 - y) * rotation_x_sensitivity] from that
    hand's wrist [(x, y)].  In particular, with sensitivities 180 and 360,
    a single Right hand whose wrist is at (0.75, 0.5) completes the frame
    with [target_rotation_y = 90] and [target_rotation_x = 0] (exact real
    arithmetic). *)
Theorem rotation_targets_from_wrist :
  (forall (T : Type) (num : PyNum T) (self self' : ARCubeController T)
          (results : SolutionOutputs T) (left_hand : option (list (Landmark T)))
          (wrist : Landmark T) (rest : list (Landmark T)),
      detected_hands results = Ok (left_hand, Some (wrist :: rest)) ->
      process_hands self results = Ok self' ->
      rotation_hand self' = Some "right"%string
      /\ target_rotation_y self'
         = ((x wrist - lit 5 10) * rotation_y_sensitivity self)%py
      /\ target_rotation_x self'
         = ((lit 5 10 - y wrist) * rotation_x_sensitivity self)%py)
  /\ (forall (self : ARCubeController R) (rest : list (Landmark R)),
        rotation_x_sensitivity self = 180%R ->
        rotation_y_sensitivity self = 360%R ->
        exists self',
          process_hands self
            (frame_of [(point 75 50 100 :: rest, "Right"%string)]) = Ok self'
          /\ rotation_hand self' = Some "right"%string
          /\ target_rotation_y self' = 90%R
          /\ target_rotation_x self' = 0%R).
Proof.
  split.
  - intros T num self self' results left_hand wrist rest Hd Hp.
    exact (process_hands_rotation _ _ Hd Hp).
  - intros self rest Hx Hy. eexists. split; [apply process_single_right|].
    cbn [apply_smoothing with_rotation_target with_roles rotation_hand
         target_rotation_x target_rotation_y set_rotation_y set_rotation_x
         set_scale set_target_rotation_x set_target_rotation_y
         set_rotation_hand set_control_hand rotation_x_sensitivity
         rotation_y_sensitivity point x y].
    rewrite Hx, Hy, !lit_R. cbn [nsub nmul PyNum_R].
    repeat split; lra.
Qed.

(** The same scenario run on binary64 from the initial state: the
    targets are the floats 90 and 0. *)
Lemma rotation_targets_from_wrist_witness :
  exists self' : ARCubeController float,
    process_hands init
      (frame_of [(hand_of 21 (point 75 50 100) (point 75 25 100), "Right"%string)])
    = Ok self'
    /\ target_rotation_y self' = 90%float
    /\ target_rotation_x self' = 0%float.
Proof.
  destruct (process_hands (T := float) init
              (frame_of [(hand_of 21 (point 75 50 100) (point 75 25 100),
                          "Right"%string)])) as [self'|e] eqn:E.
  - exists self'. split; [reflexivity|].
    destruct (proj1 rotation_targets_from_wrist float _ init self'
                (frame_of [(hand_of 21 (point 75 50 100) (point 75 25 100),
                            "Right"%string)])
                None (point 75 50 100) (repeat (point 75 25 100) 20)
                eq_refl E) as (_ & Hy & Hx).
    rewrite Hy, Hx. split; vm_compute; reflexivity.
  - vm_compute in E. discriminate E.
Defined.

(** ** The scale target on the reals *)

Section ScaleBound.

Local Open Scope R_scope.
Implicit Types (self : ARCubeController R) (results : SolutionOutputs R).

Lemma scale_target_between (lo hi o : R) :
  lo <= hi -> 0 <= o <= 1 -> lo <= lo + o * (hi - lo) <= hi.
Proof. intros Hlh Ho. nra. Qed.

(** A frame either leaves the scale target alone or sets it from an
    openness in [[0, 1]]. *)
Lemma process_hands_target_scale self results (self' : ARCubeController R) :
  process_hands self results = Ok self' ->
  target_scale self' = target_scale self
  \/ exists o : R,
       0 <= o <= 1
       /\ target_scale self'
          = scale_min self + o * (scale_max self - scale_min self).
Proof.
  intros Hp.
  destruct (process_hands_ok _ _ Hp)
    as (l & r & Hd & [(_ & _ & _ & ->) | (_ & self1 & Ho & ->)]).
  - left. reflexivity.
  - destruct (truthy_opt l) eqn:El.
    + right. destruct (scheme_outcome_scale Ho El) as (o & Hc & _ & Ht).
      exists o. split; [exact (calculate_palm_openness_range _ Hc)|exact Ht].
    + left. apply (scheme_outcome_left_absent Ho). now left.
Qed.

(** One frame keeps the scale and its target within the bounds. *)
Lemma process_hands_in_bounds self results (self' : ARCubeController R) :
  0 < smooth_factor self < 1 ->
  scale_min self <= scale_max self ->
  scale_in_bounds self ->
  process_hands self results = Ok self' ->
  scale_in_bounds self'.
Proof.
  intros Hf Hmm [Hs Ht] Hp. unfold scale_in_bounds.
  destruct (process_hands_config _ _ Hp) as (_ & -> & -> & _).
  assert (Ht' : scale_min self <= target_scale self' <= scale_max self).
  { destruct (process_hands_target_scale _ _ Hp) as [-> | (o & Ho & ->)];
      [exact Ht | now apply scale_target_between]. }
  split; [|exact Ht'].
  pose proof (process_hands_smooths Scale _ _ Hp) as Hsm. cbn [current target] in Hsm.
  rewrite Hsm.
  pose proof (smooth_value_between (scale self) (target_scale self') Hf) as Hb.
  unfold Rmin, Rmax in Hb. destruct (Rle_dec (scale self) (target_scale self')); lra.
Qed.

Lemma reachable_in_bounds self :
  reachable self -> scale_in_bounds self.
Proof.
  induction 1 as [|self self' results Hr IH Hp].
  - unfold scale_in_bounds. cbn [init scale target_scale scale_min scale_max].
    rewrite !lit_R. lra.
  - destruct (reachable_config Hr) as (Hf & Hmin & Hmax & _).
    eapply process_hands_in_bounds; [ | | exact IH | exact Hp];
      [rewrite Hf, lit_R; lra | rewrite Hmin, Hmax, !lit_R; lra].
Qed.

End ScaleBound.

(** The scale target in exact arithmetic.  A frame that completes and
    in which the loop kept a non-empty Left hand assigns the size role and
    sets [target_scale = scale_min + openness * (scale_max - scale_min)],
    where [openness] is what [calculate_palm_openness] returns for that
    hand and lies in [[0, 1]]; so the target lies in
    [[scale_min, scale_max]] whenever [scale_min <= scale_max], is exactly
    [scale_min] at openness 0 and exactly [scale_max] at openness 1. *)
Lemma scale_target_on_reals (self self' : ARCubeController R)
  (results : SolutionOutputs R)
  (left_hand right_hand : option (list (Landmark R))) :
  detected_hands results = Ok (left_hand, right_hand) ->
  truthy_opt left_hand = true ->
  process_hands self results = Ok self' ->
  exists openness : R,
    calculate_palm_openness (seq_of left_hand) = Ok openness
    /\ (0 <= openness <= 1)%R
    /\ control_hand self' = Some "left"%string
    /\ target_scale self'
       = (scale_min self + openness * (scale_max self - scale_min self))%R
    /\ ((scale_min self <= scale_max self)%R ->
        (scale_min self <= target_scale self' <= scale_max self)%R)
    /\ (openness = 0%R -> target_scale self' = scale_min self)
    /\ (openness = 1%R -> target_scale self' = scale_max self).
Proof.
  intros Hd Hl Hp.
  destruct (process_hands_scale _ _ Hd Hl Hp) as (o & Hc & Hrole & Ht).
  cbn [nadd nsub nmul PyNum_R] in Ht.
  pose proof (calculate_palm_openness_range _ Hc) as Ho.
  exists o. repeat split; try assumption; try lra.
  - rewrite Ht. apply scale_target_between; assumption.
  - rewrite Ht. apply scale_target_between; assumption.
  - intros ->. rewrite Ht. ring.
  - intros ->. rewrite Ht. ring.
Qed.






(** ** Frames without hands *)

Section Idle.

Local Open Scope R_scope.
Implicit Types (self : ARCubeController R) (results : SolutionOutputs R).

Lemma smooth_value_fixed (c f : R) : smooth_value c c f = c.
Proof. rewrite smooth_value_R. ring. Qed.

Lemma process_hands_settled self results :
  hands_reported results = false ->
  settled self ->
  exists self',
    process_hands self results = Ok self'
    /\ settled self'
    /\ scale self' = scale self
    /\ rotation_x self' = rotation_x self
    /\ rotation_y self' = rotation_y self.
Proof.
  intros E (Hs & Hx & Hy).
  exists (apply_smoothing (with_roles None None self)).
  split; [now apply process_hands_not_reported|].
  unfold settled.
  cbn [apply_smoothing with_roles scale rotation_x rotation_y target_scale
       target_rotation_x target_rotation_y smooth_factor
       set_scale set_rotation_x set_rotation_y
       set_control_hand set_rotation_hand].
  rewrite <- Hs, <- Hx, <- Hy, !smooth_value_fixed. repeat split.
Qed.

Lemma run_settled (frames : list (SolutionOutputs R)) : forall self,
  Forall (fun results => hands_reported results = false) frames ->
  settled self ->
  exists self',
    run self frames = Ok self'
    /\ scale self' = scale self
    /\ rotation_x self' = rotation_x self
    /\ rotation_y self' = rotation_y self.
Proof.
  induction frames as [|results rest IH]; intros self Hall Hset.
  - exists self. repeat split.
  - inversion Hall as [|r rs Hr Hrest]; subst.
    destruct (process_hands_settled _ Hr Hset)
      as (self1 & Hp & Hset1 & Hs & Hx & Hy).
    destruct (IH self1 Hrest Hset1) as (self' & Hrun & Hs' & Hx' & Hy').
    exists self'. cbn [run]. rewrite Hp. cbn [bind].
    split; [exact Hrun|]. rewrite Hs', Hx', Hy'. auto.
Qed.

End Idle.

(** On binary64 the initial state is a fixed point, bit for bit, of any
    frame without hands. *)
Lemma run_no_hands_binary64 (frames : list (SolutionOutputs float)) :
  Forall (fun results => hands_reported results = false) frames ->
  run init frames = Ok init.
Proof.
  induction 1 as [|results rest Hr _ IH]; [reflexivity|].
  cbn [run]. rewrite (process_hands_not_reported _ _ Hr).
  replace (apply_smoothing (with_roles None None init))
    with (init (T := float)) by (vm_compute; reflexivity).
  exact IH.
Qed.

(** C10 (fixed point of smoothing).  [smooth_value c c f = c] for all
    real [c] and [f]; the initial state has each current value on its
    target; hence any number of frames in which no hand is reported
    completes and leaves [scale], [rotation_x] and [rotation_y] at their
    initial values 2.0, 20 and 30.  Arithmetic is exact (real numbers). *)
Theorem no_hands_keep_initial_values :
  (forall c f : R, smooth_value c c f = c)
  /\ (scale (init (T := R)) = target_scale (init (T := R))
      /\ rotation_x (init (T := R)) = target_rotation_x (init (T := R))
      /\ rotation_y (init (T := R)) = target_rotation_y (init (T := R)))
  /\ (forall frames : list (SolutionOutputs R),
        Forall (fun results => hands_reported results = false) frames ->
        exists self',
          run init frames = Ok self'
          /\ scale self' = 2%R
          /\ rotation_x self' = 20%R
          /\ rotation_y self' = 30%R).
Proof.
  split; [exact smooth_value_fixed|].
  split; [repeat split|].
  intros frames Hall.
  destruct (run_settled (self := init) Hall) as (self' & Hrun & Hs & Hx & Hy).
  { repeat split. }
  exists self'. split; [exact Hrun|].
  rewrite Hs, Hx, Hy. cbn [init scale rotation_x rotation_y].
  rewrite lit_R. cbn [nofZ PyNum_R]. repeat split; lra.
Qed.

(** Three frames without hands from the initial state. *)
Lemma no_hands_keep_initial_values_witness :
  exists self' : ARCubeController R,
    run init [no_hands; no_hands; no_hands] = Ok self'
    /\ scale self' = 2%R /\ rotation_x self' = 20%R /\ rotation_y self' = 30%R.
Proof.
  apply (proj2 (proj2 no_hands_keep_initial_values)).
  repeat constructor.
Defined.

(** ** Runs on binary64 *)

#[local] Set Warnings "-inexact-float".

(** The specification's third scenario, as the program computes it: a
    Left hand of average fingertip distance 0.25 and a Right hand with
    the wrist at (0.75, 0.5), from the initial state.  The rotation
    values are the exact floats 90, 0, 39 and 17; the scale target and
    the scale carry the rounding of [0.25 - 0.10] and [0.40 - 0.10]. *)
Example both_hands_binary64 :
  process_hands init
    (frame_of [(hand_of 21 (point 50 50 100) (point 50 25 100), "Left"%string);
               (hand_of 21 (point 75 50 100) (point 75 25 100), "Right"%string)])
  = Ok {| scale := 2.1124999999999998%float;
          smooth_factor := 0.15%float;
          target_scale := 2.7499999999999996%float;
          control_hand := Some "left"%string;
          rotation_hand := Some "right"%string;
          rotation_x := 17%float;
          rotation_y := 39%float;
          target_rotation_x := 0%float;
          target_rotation_y := 90%float;
          rotation_x_sensitivity := 180%float;
          rotation_y_sensitivity := 360%float;
          scale_min := 0.5%float;
          scale_max := 5%float |}.
Proof. vm_compute. reflexivity. Qed.

(** Roles are reset only when no hand is reported.  A frame that reports
    a hand whose label is neither "Left" nor "Right" (which the detector
    never produces) leaves the roles of the frame before in place. *)
Example unlabelled_hand_keeps_roles :
  (self1 <- process_hands (T := float) init
     (frame_of [(hand_of 21 (point 50 50 100) (point 50 25 100), "Left"%string)]) ;;
   self2 <- process_hands self1
     (frame_of [(hand_of 21 (point 50 50 100) (point 50 25 100), "Unknown"%string)]) ;;
   Ok (control_hand self2, rotation_hand self2))
  = Ok (Some "left"%string, None).
Proof. vm_compute. reflexivity. Qed.

(** The identity [smooth_value c c f = c] is one of exact arithmetic: on
    binary64 it holds at the finite values the controller starts from,
    and fails at infinity. *)
Example smooth_value_fixed_binary64 :
  smooth_value 2%float 2%float 0.15%float = 2%float
  /\ smooth_value infinity infinity 0.15%float = nan.
Proof. split; vm_compute; reflexivity. Qed.

(** ** Roles and the status line *)

Section Status.

Context {T : Type} {num : PyNum T}.
Implicit Types (self : ARCubeController T) (results : SolutionOutputs T).

Lemma scheme_outcome_roles_well_formed self l r (self1 : ARCubeController T) :
  scheme_outcome self l r self1 ->
  roles_well_formed self -> roles_well_formed self1.
Proof.
  intros [o w rest Hl Hr Ho | o Hl Hr Ho | w rest Hl Hr | Hl Hr] Hwf;
    try exact Hwf; split; cbn; auto.
Qed.

Lemma process_hands_roles_well_formed self results (self' : ARCubeController T) :
  process_hands self results = Ok self' ->
  roles_well_formed self -> roles_well_formed self'.
Proof.
  intros Hp Hwf.
  destruct (process_hands_ok _ _ Hp)
    as (l & r & _ & [(_ & _ & _ & ->) | (_ & self1 & Ho & ->)]).
  - split; cbn; auto.
  - exact (scheme_outcome_roles_well_formed Ho Hwf).
Qed.

Lemma reachable_roles_well_formed self :
  reachable self -> roles_well_formed self.
Proof.
  induction 1 as [|self self' results _ IH Hp].
  - split; cbn; auto.
  - eapply process_hands_roles_well_formed; eassumption.
Qed.

(** The status block as a table of the two roles. *)
Lemma status_text_table self :
  roles_well_formed self ->
  status_text self =
  match control_hand self, rotation_hand self with
  | Some _, Some _ =>
      ("Both Hands Active", "Left: Size Control", "Right: Rotation")%string
  | Some _, None =>
      ("Left Hand: Size Control", "Open palm = Larger",
       "Close palm = Smaller")%string
  | None, Some _ =>
      ("Right Hand: Rotation", "Move to rotate cube", "")%string
  | None, None => ("No Hands Detected", "Show your hand(s)", "")%string
  end.
Proof.
  intros [[Hc|Hc] [Hr|Hr]]; unfold status_text; rewrite Hc, Hr; reflexivity.
Qed.

End Status.



(** X2.  After a frame of well-formed hands, whatever the state before,
    the status line names the hands of that very frame: "Both Hands
    Active" when a Left and a Right label are present, "Left Hand: Size
    Control" for Left only, "Right Hand: Rotation" for Right only, "No
    Hands Detected" for none. *)
Theorem status_names_hands_in_frame (T : Type) (num : PyNum T)
  (self : ARCubeController T) (results : SolutionOutputs T) :
  Forall valid_hand (hand_pairs results) ->
  exists self',
    process_hands self results = Ok self'
    /\ fst (fst (status_text self')) =
       match existsb (has_label "Left") (hand_pairs results),
             existsb (has_label "Right") (hand_pairs results) with
       | true, true => "Both Hands Active"%string
       | true, false => "Left Hand: Size Control"%string
       | false, true => "Right Hand: Rotation"%string
       | false, false => "No Hands Detected"%string
       end.
Proof.
  intros Hv. destruct (process_hands_roles self _ Hv) as (self' & Hp & Hr).
  exists self'. split; [exact Hp|].
  unfold status_text.
  destruct (existsb (has_label "Left") (hand_pairs results)),
           (existsb (has_label "Right") (hand_pairs results));
    cbn [spec_assign_roles] in Hr; injection Hr as -> ->; reflexivity.
Qed.

(** A single Right hand, on binary64, from the initial state. *)
Lemma status_names_hands_in_frame_witness :
  exists self' : ARCubeController float,
    process_hands init
      (frame_of [(hand_of 21 (point 75 50 100) (point 75 25 100), "Right"%string)])
    = Ok self'
    /\ fst (fst (status_text self')) = "Right Hand: Rotation"%string.
Proof.
  apply (@status_names_hands_in_frame float _ init
    (frame_of [(hand_of 21 (point 75 50 100) (point 75 25 100), "Right"%string)])).
  constructor; [split; [reflexivity|right; reflexivity]|constructor].
Defined.

(** ** The openness percentage of the overlay, on the reals *)

Section Percent.

Local Open Scope R_scope.
Implicit Types (self : ARCubeController R) (results : SolutionOutputs R).

Lemma R_trunc_nonneg (r : R) : 0 <= r -> R_trunc r = Int_part r.
Proof. intros Hr. unfold R_trunc. destruct (Rle_dec 0 r); [reflexivity|lra]. Qed.

Lemma R_trunc_range (r : R) (hi : Z) :
  0 <= r <= IZR hi -> (0 <= R_trunc r <= hi)%Z.
Proof.
  intros [Hlo Hhi]. rewrite (R_trunc_nonneg Hlo).
  destruct (base_Int_part r) as [Hle Hgt]. split.
  - assert (H : (-1 < Int_part r)%Z) by (apply lt_IZR; lra). lia.
  - apply le_IZR. lra.
Qed.

Lemma py_truediv_R (a b : R) :
  py_truediv a b = if Req_dec_T b 0 then Throws ZeroDivisionError
                   else Returns (a / b).
Proof.
  unfold py_truediv. cbn [neqb PyNumDraw_R nofZ ndiv PyNum_R].
  destruct (Req_dec_T b 0); reflexivity.
Qed.

Lemma openness_percent_R self :
  scale_max self <> scale_min self ->
  openness_percent self
  = Returns (R_trunc ((target_scale self - scale_min self)
                      / (scale_max self - scale_min self) * 100)).
Proof.
  intros Hne. unfold openness_percent.
  cbn [nsub PyNum_R]. rewrite py_truediv_R.
  destruct (Req_dec_T (scale_max self - scale_min self) 0) as [E|_]; [lra|].
  reflexivity.
Qed.

End Percent.



(** ** The layout of the overlay *)

Lemma in_combine_seq (lines : list string) : forall (a k : nat) (line : string),
  In (k, line) (combine (seq a (List.length lines)) lines) <->
  a <= k /\ nth_error lines (k - a) = Some line.
Proof.
  induction lines as [|l ls IH]; intros a k line.
  - cbn [List.length seq combine In]. split; [tauto|].
    intros [_ H]. destruct (k - a); discriminate H.
  - cbn [List.length seq combine In]. rewrite IH. split.
    + intros [E | [Hle Hn]].
      * injection E as <- <-. split; [lia|]. now rewrite Nat.sub_diag.
      * split; [lia|]. replace (k - a) with (S (k - S a)) by lia. exact Hn.
    + intros [Hle Hn]. destruct (Nat.eq_dec a k) as [<-|Hne].
      * left. rewrite Nat.sub_diag in Hn. injection Hn as <-. reflexivity.
      * right. split; [lia|].
        replace (k - a) with (S (k - S a)) in Hn by lia. exact Hn.
Qed.

(** A text is laid out exactly when it is a non-blank line, and then at
    the position of its index. *)
Lemma laid_out_in (lines : list string) (y_offset : Z) (text : string)
  (org : Z * Z) :
  In (text, org) (laid_out lines y_offset) <->
  exists k : nat,
    nth_error lines k = Some text /\ text <> ""%string
    /\ org = (20, y_offset + 24 * Z.of_nat k)%Z.
Proof.
  unfold laid_out. rewrite in_map_iff. split.
  - intros ([k line] & E & Hin). cbn [fst snd] in E. injection E as <- <-.
    apply filter_In in Hin. destruct Hin as [Hin Hne]. cbn [snd] in Hne.
    apply in_combine_seq in Hin. destruct Hin as [_ Hn].
    rewrite Nat.sub_0_r in Hn.
    exists k. split; [exact Hn|]. split; [|reflexivity].
    intros ->. discriminate Hne.
  - intros (k & Hn & Hne & ->). exists (k, text). split; [reflexivity|].
    apply filter_In. split.
    + apply in_combine_seq. split; [lia|]. now rewrite Nat.sub_0_r.
    + cbn [snd]. apply negb_true_iff. now apply String.eqb_neq.
Qed.

Section Layout.

Context {T : Type} {num : PyNum T} {draw : PyNumDraw T}.
Variable format_f : nat -> T -> string.

Lemma drawn_texts_app (a b : list (OverlayCall T)) :
  drawn_texts (a ++ b) = drawn_texts a ++ drawn_texts b.
Proof.
  induction a as [|c a IH]; [reflexivity|].
  destruct c; cbn [app drawn_texts]; now rewrite IH.
Qed.

(** The positions the loop hands out, counted from line [start]. *)
Lemma put_lines_from (lines : list string) : forall (start : nat) (y_offset : Z),
  drawn_texts (put_lines (T := T) lines (y_offset + 24 * Z.of_nat start))
  = map (fun p => (snd p, (20, y_offset + 24 * Z.of_nat (fst p))%Z))
        (filter (fun p => negb (String.eqb (snd p) ""))
                (combine (seq start (List.length lines)) lines)).
Proof.
  induction lines as [|line rest IH]; intros start y_offset; [reflexivity|].
  cbn [put_lines List.length seq combine filter snd fst].
  rewrite drawn_texts_app.
  replace (y_offset + 24 * Z.of_nat start + 24)%Z
    with (y_offset + 24 * Z.of_nat (S start))%Z by lia.
  rewrite IH.
  destruct (String.eqb line ""); reflexivity.
Qed.

Lemma put_lines_laid_out (lines : list string) (y_offset : Z) :
  drawn_texts (put_lines (T := T) lines y_offset) = laid_out lines y_offset.
Proof.
  unfold laid_out. rewrite <- (put_lines_from lines 0 y_offset).
  f_equal. f_equal. lia.
Qed.

Lemma info_lines_length (self : ARCubeController T)
  (status left_status right_status : string) (percent : Z) :
  List.length (info_lines format_f self status left_status right_status percent)
  = 23.
Proof. reflexivity. Qed.

Lemma draw_info_text_returns (self : ARCubeController T)
  (frame_width frame_height : Z) (overlay : Overlay T) :
  draw_info_text format_f self frame_width frame_height = Returns overlay ->
  exists percent : Z,
    openness_percent self = Returns percent
    /\ overlay
       = {| overlay_shape := (frame_height, frame_width, 3%Z);
            overlay_calls :=
              cv2_rectangle (10, 10)%Z (400, 520)%Z (50, 50, 50)%Z (-1)%Z
              :: put_lines
                   (info_lines format_f self
                      (fst (fst (status_text self)))
                      (snd (fst (status_text self)))
                      (snd (status_text self)) percent) 30%Z |}.
Proof.
  unfold draw_info_text. destruct (status_text self) as [[status ls] rs].
  destruct (openness_percent self) as [percent|e]; [|discriminate].
  intros H. exists percent. split; [reflexivity|].
  cbn [attempt_bind] in H. now injection H as <-.
Qed.

Lemma drawn_texts_rectangle (pt1 pt2 : Z * Z) (color : Z * Z * Z)
  (thickness : Z) (calls : list (OverlayCall T)) :
  drawn_texts (cv2_rectangle pt1 pt2 color thickness :: calls)
  = drawn_texts calls.
Proof. reflexivity. Qed.

End Layout.

(** X5.  Whenever [draw_info_text] returns, the overlay has the shape of
    the frame, and its calls are the grey box from (10, 10) to (400, 520)
    followed by the 23 info lines: line number [k] (from 0) is drawn at
    (20, 30 + 24 k) if it is not blank and not at all if it is, so a blank
    line still moves the text down.  The last line, "ESC - Exit", is
    line 22 and lands at y = 558, below the bottom edge 520 of the box. *)
Theorem overlay_text_positions (T : Type) (num : PyNum T) (draw : PyNumDraw T)
  (format_f : nat -> T -> string) (self : ARCubeController T)
  (frame_width frame_height : Z) (overlay : Overlay T) :
  draw_info_text format_f self frame_width frame_height = Returns overlay ->
  overlay_shape overlay = (frame_height, frame_width, 3%Z)
  /\ exists lines : list string,
       List.length lines = 23
       /\ nth_error lines 0 = Some "AR 3D Cube Controller"%string
       /\ nth_error lines 22 = Some "ESC - Exit"%string
       /\ overlay_calls overlay
          = cv2_rectangle (10, 10)%Z (400, 520)%Z (50, 50, 50)%Z (-1)%Z
            :: put_lines lines 30%Z
       /\ (forall (text : string) (org : Z * Z),
             In (text, org) (drawn_texts (overlay_calls overlay)) <->
             exists k : nat,
               nth_error lines k = Some text /\ text <> ""%string
               /\ org = (20, 30 + 24 * Z.of_nat k)%Z)
       /\ In ("ESC - Exit"%string, (20, 558)%Z)
             (drawn_texts (overlay_calls overlay)).
Proof.
  intros H. destruct (draw_info_text_returns _ _ _ _ H) as (percent & _ & ->).
  split; [reflexivity|].
  exists (info_lines format_f self (fst (fst (status_text self)))
            (snd (fst (status_text self))) (snd (status_text self)) percent).
  split; [reflexivity|]. split; [reflexivity|]. split; [reflexivity|].
  split; [reflexivity|].
  cbn [overlay_calls]. rewrite drawn_texts_rectangle, put_lines_laid_out. split.
  - intros text org. apply laid_out_in.
  - apply laid_out_in. exists 22. repeat split. discriminate.
Qed.

(** The overlay of the initial state for a 1280 by 720 frame, on
    binary64. *)
Lemma overlay_text_positions_witness :
  exists overlay : Overlay float,
    draw_info_text (fun _ _ => ""%string) init 1280 720 = Returns overlay
    /\ In ("ESC - Exit"%string, (20, 558)%Z)
          (drawn_texts (overlay_calls overlay)).
Proof.
  destruct (draw_info_text (fun _ _ => ""%string) (init (T := float)) 1280 720)
    as [overlay|e] eqn:E.
  - exists overlay. split; [reflexivity|].
    destruct (@overlay_text_positions float _ _ _ init 1280 720 overlay E)
      as (_ & lines & _ & _ & _ & _ & _ & Hin).
    exact Hin.
  - vm_compute in E. discriminate E.
Defined.

(** ** The cube *)

Section Cube.

Context {T : Type} {num : PyNum T} {draw : PyNumDraw T}.
Implicit Types (self : ARCubeController T).

Lemma draw_cube_ok self : exists calls, draw_cube self = Ok calls.
Proof. eexists. reflexivity. Qed.

Lemma draw_cube_sent self (calls : list (Call T)) :
  draw_cube self = Ok calls ->
  sent_vertices calls
  = flat_map (face_corners (scale self)) cube_faces
    ++ flat_map (edge_corners (scale self)) cube_edges.
Proof. intros H. injection H as <-. reflexivity. Qed.

Lemma gl_run_app (s : GLState) (a b : list (Call T)) :
  gl_run s (a ++ b)
  = match gl_run s a with
    | Some s' => gl_run s' b
    | None => None
    end.
Proof.
  revert s. induction a as [|c a IH]; intros s; [reflexivity|].
  cbn [app gl_run]. destruct (gl_step s c); [apply IH|reflexivity].
Qed.

(** The calls of [draw_cube] are a correct OpenGL sequence from any
    state outside [glBegin], and change nothing but the blending switch,
    which they leave off. *)
Lemma draw_cube_gl self (calls : list (Call T)) (s : GLState) :
  draw_cube self = Ok calls ->
  gl_in_begin s = false ->
  gl_run s calls = Some (gl_set_cap GL_BLEND false s).
Proof.
  intros H Hb. injection H as <-.
  destruct s as [mode mv pj inb dt bl tx ts]. cbn in Hb. subst inb.
  reflexivity.
Qed.

End Cube.

(** X6.  [draw_cube] never raises, whatever the scale: every vertex
    index of the six faces and twelve edges is below 8.  It sends 48
    vertices, the four corners of each face in the order of [faces], then
    the two ends of each edge in the order of [edges], each of them one of
    the 8 corners [(+-s, +-s, +-s)].  Its calls are a correct OpenGL
    sequence from any state outside [glBegin] (each [glBegin] closed by
    its [glEnd], vertices sent only in between) and leave the state as it
    was, with blending off. *)
Theorem draw_cube_sends_the_corners (T : Type) (num : PyNum T)
  (draw : PyNumDraw T) (self : ARCubeController T) :
  exists calls : list (Call T),
    draw_cube self = Ok calls
    /\ Forall (fun face => Forall (fun i => i < 8) (face_indices face)) cube_faces
    /\ Forall (fun edge => fst edge < 8 /\ snd edge < 8) cube_edges
    /\ sent_vertices calls
       = flat_map (face_corners (scale self)) cube_faces
         ++ flat_map (edge_corners (scale self)) cube_edges
    /\ List.length (sent_vertices calls) = 48
    /\ Forall (fun v => In v (cube_vertices (scale self))) (sent_vertices calls)
    /\ forall s : GLState,
         gl_in_begin s = false ->
         gl_run s calls = Some (gl_set_cap GL_BLEND false s).
Proof.
  destruct (draw_cube_ok self) as (calls & Hc). exists calls.
  split; [exact Hc|].
  split; [repeat constructor|].
  split; [repeat constructor|].
  pose proof (draw_cube_sent Hc) as Hs.
  split; [exact Hs|].
  split; [rewrite Hs; reflexivity|].
  split.
  - rewrite Hs. repeat (apply Forall_cons; [cbn; tauto|]). apply Forall_nil.
  - intros s Hb. eapply draw_cube_gl; eassumption.
Qed.

(** ** The cube as a solid, on the reals *)

Ltac in_pairs :=
  cbn [In cube_edges]; repeat (first [left; reflexivity | right]).

(** X7.  On the reals, for a half side [s]: each of the twelve pairs of
    [edges] joins two corners at distance [2 |s|], and when [s] is not 0
    these are all the pairs of corners at that distance, so the wireframe
    is the complete set of cube edges; each entry of [faces] lists its
    four corners around a square (neighbours in the list, the last and the
    first included, at distance [2 |s|], opposite corners at distance
    [2 sqrt 2 |s|]); and the six faces lie in the planes their comments
    name: back [z = -s], front [z = s], bottom [y = -s], top [y = s], left
    [x = -s], right [x = s]. *)
Theorem cube_wireframe_geometry (s : R) :
  Forall (fun edge =>
            sqdist (cube_vertex s (fst edge)) (cube_vertex s (snd edge))
            = Rsqr (2 * s))
         cube_edges
  /\ (s <> 0%R ->
      forall i j : nat,
        i < 8 -> j < 8 ->
        sqdist (cube_vertex s i) (cube_vertex s j) = Rsqr (2 * s) ->
        In (i, j) cube_edges \/ In (j, i) cube_edges)
  /\ Forall (fun face =>
               match face_corners s face with
               | [a; b; c; d] =>
                   sqdist a b = Rsqr (2 * s) /\ sqdist b c = Rsqr (2 * s)
                   /\ sqdist c d = Rsqr (2 * s) /\ sqdist d a = Rsqr (2 * s)
                   /\ sqdist a c = (2 * Rsqr (2 * s))%R
                   /\ sqdist b d = (2 * Rsqr (2 * s))%R
               | _ => False
               end)
            cube_faces
  /\ Forall2 (fun face plane =>
                Forall (fun v => nth (fst plane) v 0%R
                                 = if snd plane : bool then s else (- s)%R)
                       (face_corners s face))
             cube_faces
             [(2, false); (2, true); (1, false); (1, true);
              (0, false); (0, true)].
Proof.
  split; [|split; [|split]].
  - repeat (apply Forall_cons;
            [cbn; unfold Rsqr; ring|]). apply Forall_nil.
  - intros Hs i j Hi Hj H.
    assert (Hpos : (0 < s * s)%R) by (apply (Rsqr_pos_lt s Hs)).
    do 8 (destruct i as [|i];
          [do 8 (destruct j as [|j];
                 [first [ left; solve [in_pairs]
                        | right; solve [in_pairs]
                        | exfalso; cbn in H; unfold Rsqr in H; nra ]|]);
           lia|]).
    lia.
  - repeat (apply Forall_cons;
            [cbn; unfold Rsqr; repeat split; ring|]). apply Forall_nil.
  - repeat (apply Forall2_cons;
            [repeat (apply Forall_cons; [reflexivity|]); apply Forall_nil|]).
    apply Forall2_nil.
Qed.

(** In the cube of half side 2, corners 0 and 1 are at the distance of
    an edge, and [edges] joins them. *)
Lemma cube_wireframe_geometry_witness :
  In (0, 1) cube_edges \/ In (1, 0) cube_edges.
Proof.
  refine (proj1 (proj2 (cube_wireframe_geometry 2)) _ 0 1 _ _ _).
  - lra.
  - lia.
  - lia.
  - cbn. unfold Rsqr. ring.
Defined.



(** ** The loop of [main] *)

Section MainLoop.

Context {T : Type} {num : PyNum T} {draw : PyNumDraw T}.
Variable format_f : nat -> T -> string.
Implicit Types (controller : ARCubeController T) (turns : list (Iteration T)).

Lemma scene_calls_gl controller :
  gl_run gl_between_frames (scene_calls controller) = Some gl_between_frames.
Proof. reflexivity. Qed.

Lemma feed_calls_gl (screen_width screen_height texture_id : Z)
  (frame_rgb : Image T) :
  gl_run gl_between_frames
         (feed_calls screen_width screen_height texture_id frame_rgb)
  = Some gl_between_frames.
Proof.
  cbn. rewrite Z.eqb_refl. reflexivity.
Qed.

Lemma frame_step_returns controller (screen_width screen_height : Z)
  (capture : Capture T) (controller' : ARCubeController T)
  (calls : list (Call T)) :
  frame_step format_f controller screen_width screen_height capture
  = Returns (controller', calls) ->
  process_hands controller (detection capture) = Ok controller'
  /\ exists (info_overlay : Overlay T) (cube : list (Call T)),
       draw_info_text format_f controller'
         (snd (shape capture)) (fst (shape capture)) = Returns info_overlay
       /\ draw_cube controller' = Ok cube
       /\ calls
          = scene_calls controller' ++ cube
            ++ feed_calls screen_width screen_height (texture_id capture)
                 {| image_shape := shape capture;
                    image_overlay := info_overlay |}.
Proof.
  unfold frame_step.
  destruct (process_hands controller (detection capture)) as [c1|e];
    [|discriminate].
  cbn [lift attempt_bind].
  destruct (draw_info_text format_f c1 (snd (shape capture))
              (fst (shape capture))) as [ov|e] eqn:Eo; [|discriminate].
  cbn [attempt_bind].
  destruct (draw_cube_ok c1) as (cube & Hcube). rewrite Hcube.
  cbn [lift attempt_bind]. intros H. injection H as <- <-.
  split; [reflexivity|]. exists ov, cube.
  split; [exact Eo|]. split; [exact Hcube|reflexivity].
Qed.

(** A frame's calls take OpenGL from the between-frames state back to
    it. *)
Lemma frame_step_gl controller (screen_width screen_height : Z)
  (capture : Capture T) (controller' : ARCubeController T)
  (calls : list (Call T)) :
  frame_step format_f controller screen_width screen_height capture
  = Returns (controller', calls) ->
  gl_run gl_between_frames calls = Some gl_between_frames.
Proof.
  intros H. destruct (frame_step_returns _ _ _ _ H)
    as (_ & ov & cube & _ & Hcube & ->).
  rewrite gl_run_app, scene_calls_gl, gl_run_app.
  rewrite (@draw_cube_gl T num draw _ _ gl_between_frames Hcube eq_refl).
  apply feed_calls_gl.
Qed.

Lemma main_loop_gl turns : forall (running : bool) controller
  (screen_width screen_height : Z),
  gl_run gl_between_frames
         (fst (main_loop format_f running controller
                 screen_width screen_height turns))
  = Some gl_between_frames.
Proof.
  induction turns as [|turn rest IH]; intros running controller sw sh.
  - destruct running; reflexivity.
  - cbn [main_loop]. destruct running; [|reflexivity].
    destruct (read turn) as [capture|]; [|reflexivity].
    destruct (frame_step format_f controller sw sh capture)
      as [[c1 calls]|e] eqn:E; [|reflexivity].
    specialize (IH (fold_left handle_event (events turn) true) c1 sw sh).
    destruct (main_loop format_f (fold_left handle_event (events turn) true)
                c1 sw sh rest) as [more state].
    cbn [fst] in *. rewrite gl_run_app, (frame_step_gl _ _ _ _ E). exact IH.
Qed.

(** Once a quit request is seen the flag stays down: the events of a
    turn leave the loop running exactly when it was running and none of
    them is a quit request. *)
Lemma handle_events_quit (evs : list Event) : forall running : bool,
  fold_left handle_event evs running
  = running && negb (existsb quit_event evs).
Proof.
  induction evs as [|ev rest IH]; intros running.
  - cbn. now rewrite andb_true_r.
  - cbn [fold_left existsb]. rewrite IH.
    unfold handle_event, quit_event.
    destruct (type ev); [ | destruct (key ev =? K_ESCAPE)%Z | ];
      destruct running, (existsb quit_event rest); reflexivity.
Qed.

End MainLoop.

(** X9.  [init_opengl] raises (ZeroDivisionError) exactly when the
    height is 0.  Otherwise its calls take a fresh OpenGL context to the
    state with modelview mode, empty matrix stacks and the depth test on,
    and all the calls the loop of [main] then makes, over any turns and
    from any controller state, are a correct OpenGL sequence that ends in
    that same state: every [glBegin] is closed, vertices are sent only in
    between, each pushed matrix is popped in its own mode (never more than
    one projection matrix pushed), the depth test is back on, blending
    and texturing are off, and every texture generated is deleted. *)
Theorem gl_calls_well_formed (T : Type) (num : PyNum T) (draw : PyNumDraw T)
  (format_f : nat -> T -> string) (width height : Z)
  (controller : ARCubeController T) (turns : list (Iteration T))
  (running : bool) :
  (init_opengl (T := T) width height = Throws ZeroDivisionError
   <-> height = 0%Z)
  /\ (height <> 0%Z ->
      exists setup : list (Call T),
        init_opengl width height = Returns setup
        /\ gl_run gl_fresh setup = Some gl_between_frames
        /\ gl_run gl_fresh
             (setup ++ fst (main_loop format_f running controller
                              width height turns))
           = Some gl_between_frames).
Proof.
  unfold init_opengl, int_truediv. split.
  - destruct (Z.eqb_spec height 0) as [E|N]; cbn [attempt_bind].
    + tauto.
    + split; [discriminate|]. intros E. contradiction.
  - intros N. destruct (Z.eqb_spec height 0) as [E|_]; [contradiction|].
    cbn [attempt_bind]. eexists. split; [reflexivity|].
    split; [reflexivity|].
    rewrite gl_run_app. cbn [gl_run gl_step gl_in_begin gl_fresh].
    apply main_loop_gl.
Qed.

(** A 1280 by 720 window and one turn without hands, on binary64. *)
Lemma gl_calls_well_formed_witness :
  exists setup : list (Call float),
    init_opengl 1280 720 = Returns setup
    /\ gl_run gl_fresh
         (setup ++ fst (main_loop (fun _ _ => ""%string) true init 1280 720
                          [{| events := [];
                              read := Some {| shape := (720, 1280)%Z;
                                              detection := no_hands;
                                              texture_id := 1 |} |}]))
       = Some gl_between_frames.
Proof.
  destruct (proj2 (@gl_calls_well_formed float _ _ (fun _ _ => ""%string)
                     1280 720 init
                     [{| events := [];
                         read := Some {| shape := (720, 1280)%Z;
                                         detection := no_hands;
                                         texture_id := 1 |} |}] true))
    as (setup & H0 & _ & H1).
  - discriminate.
  - exists setup. split; [exact H0|exact H1].
Defined.

(** X10.  One turn of the running loop.  If the camera read fails the
    loop is left at once: no call is made and the controller is
    untouched, whatever the events were.  Otherwise the frame is
    processed and drawn even when the events of this very turn ask to
    quit (a QUIT event, or Escape pressed): the loop is left only after
    that frame, and no later turn is looked at; a later event cannot take
    a quit request back.  Without a quit request the loop goes on with
    the next turn.  An exception in the frame ends the run with nothing
    drawn for it. *)
Theorem main_loop_turn (T : Type) (num : PyNum T) (draw : PyNumDraw T)
  (format_f : nat -> T -> string) (controller : ARCubeController T)
  (screen_width screen_height : Z) (turn : Iteration T)
  (rest : list (Iteration T)) :
  (read turn = None ->
   main_loop format_f true controller screen_width screen_height (turn :: rest)
   = ([], Exited controller))
  /\ (forall (capture : Capture T) (e : pyexc),
        read turn = Some capture ->
        frame_step format_f controller screen_width screen_height capture
        = Throws e ->
        main_loop format_f true controller screen_width screen_height
                  (turn :: rest)
        = ([], Crashed e))
  /\ (forall (capture : Capture T) (controller' : ARCubeController T)
             (calls : list (Call T)),
        read turn = Some capture ->
        frame_step format_f controller screen_width screen_height capture
        = Returns (controller', calls) ->
        (existsb quit_event (events turn) = true ->
         main_loop format_f true controller screen_width screen_height
                   (turn :: rest)
         = (calls, Exited controller'))
        /\ (existsb quit_event (events turn) = false ->
            main_loop format_f true controller screen_width screen_height
                      (turn :: rest)
            = (calls ++ fst (main_loop format_f true controller'
                               screen_width screen_height rest),
               snd (main_loop format_f true controller'
                      screen_width screen_height rest)))).
Proof.
  split; [|split].
  - intros Hr. cbn [main_loop]. now rewrite Hr.
  - intros capture e Hr Hf. cbn [main_loop]. now rewrite Hr, Hf.
  - intros capture controller' calls Hr Hf.
    cbn [main_loop]. rewrite Hr, Hf, handle_events_quit. cbn [andb].
    split; intros ->; cbn [negb].
    + destruct rest; cbn [main_loop]; now rewrite app_nil_r.
    + destruct (main_loop format_f true controller' screen_width
                  screen_height rest) as [more state]. reflexivity.
Qed.

(** Escape pressed in a turn whose frame shows no hand, followed by a
    further turn, on binary64: the loop is left after the first frame. *)
Lemma main_loop_turn_witness :
  snd (main_loop (fun _ _ => ""%string) true (init (T := float)) 1280 720
         [{| events := [{| type := KEYDOWN; key := 27 |}];
             read := Some {| shape := (720, 1280)%Z;
                             detection := no_hands; texture_id := 1 |} |};
          {| events := [];
             read := Some {| shape := (720, 1280)%Z;
                             detection := no_hands; texture_id := 2 |} |}])
  = Exited init.
Proof.
  destruct (frame_step (fun _ _ => ""%string) (init (T := float)) 1280 720
              {| shape := (720, 1280)%Z; detection := no_hands;
                 texture_id := 1 |}) as [[c1 calls]|e] eqn:E.
  - rewrite (proj1 (proj2 (proj2 (@main_loop_turn float _ _
               (fun _ _ => ""%string) init 1280 720
               {| events := [{| type := KEYDOWN; key := 27 |}];
                  read := Some {| shape := (720, 1280)%Z;
                                  detection := no_hands; texture_id := 1 |} |}
               [{| events := [];
                   read := Some {| shape := (720, 1280)%Z;
                                   detection := no_hands;
                                   texture_id := 2 |} |}]))
             _ c1 calls eq_refl E) eq_refl).
    cbn [snd]. f_equal.
    apply frame_step_returns in E. destruct E as (Hp & _).
    vm_compute in Hp. now injection Hp as <-.
  - vm_compute in E. discriminate E.
Defined.

(** ** When a frame raises *)

Section FrameFaults.

Context {T : Type} {num : PyNum T}.
Implicit Types (self : ARCubeController T) (results : SolutionOutputs T).
Implicit Types (pairs : list (NormalizedLandmarkList T * ClassificationList)).
Implicit Types (l r : option (list (Landmark T))).

Lemma exn_is_index_error (e : exn) : e = IndexError.
Proof. now destruct e. Qed.

(** The loop raises as soon as it meets a hand without classification. *)
Lemma scan_hands_raise pairs : forall l r,
  Exists (fun p => label_of p = None) pairs ->
  scan_hands pairs l r = Raise IndexError.
Proof.
  induction pairs as [|[hl hd] rest IH]; intros l r Hex.
  - inversion Hex.
  - cbn [scan_hands]. destruct (classification hd) as [|c cs] eqn:Ec.
    + reflexivity.
    + cbn [getitem nth_error bind].
      assert (Hrest : Exists (fun p => label_of p = None) rest).
      { inversion Hex as [p ps Hp|p ps Hps]; subst; [|exact Hps].
        unfold label_of in Hp. cbn [snd] in Hp. rewrite Ec in Hp.
        discriminate Hp. }
      destruct (String.eqb (label c) "Left");
        [|destruct (String.eqb (label c) "Right")]; now apply IH.
Qed.

Lemma labelled_or_not pairs :
  Forall (fun p => label_of p <> None) pairs
  \/ Exists (fun p => label_of p = None) pairs.
Proof.
  induction pairs as [|p rest [IH|IH]].
  - left. constructor.
  - destruct (label_of p) eqn:E.
    + left. constructor; [congruence|exact IH].
    + right. now apply Exists_cons_hd.
  - right. now apply Exists_cons_tl.
Qed.

(** The control scheme raises exactly on a non-empty Left hand of fewer
    than 21 keypoints. *)
Lemma control_scheme_raise self l r :
  control_scheme self l r = Raise IndexError
  <-> truthy_opt l = true /\ List.length (seq_of l) < 21.
Proof.
  split.
  - intros H. destruct (truthy_opt l) eqn:El.
    + split; [reflexivity|].
      destruct (Nat.lt_ge_cases (List.length (seq_of l)) 21) as [Hlt|Hge];
        [exact Hlt|].
      destruct (control_scheme_total self (l := l) r) as (self1 & H1).
      * intros h ->. cbn [seq_of] in Hge.
        exfalso. revert H. unfold control_scheme. rewrite El.
        destruct (calculate_palm_openness_total (num := num) h Hge) as (o & Ho).
        cbn [andb seq_of]. rewrite !update_scale_from_palm_eq, Ho.
        cbn [bind].
        destruct (truthy_opt r) eqn:Er; [|discriminate].
        destruct (truthy_opt_true _ Er) as (w & rest & ->). discriminate.
      * rewrite H1 in H. discriminate H.
    + exfalso. revert H. unfold control_scheme. rewrite El. cbn [andb].
      destruct (truthy_opt r) eqn:Er; [|discriminate].
      destruct (truthy_opt_true _ Er) as (w & rest & ->). discriminate.
  - intros [El Hlt]. unfold control_scheme. rewrite El.
    pose proof (calculate_palm_openness_short (num := num) _ Hlt) as Hs.
    destruct (truthy_opt r); cbn [andb];
      now rewrite update_scale_from_palm_eq, Hs.
Qed.

Lemma last_labelled_at_least (n : nat) (lbl : string) pairs
  (h : list (Landmark T)) :
  Forall (fun p => n <= List.length (landmark (fst p))) pairs ->
  last_labelled lbl pairs = Some h -> n <= List.length h.
Proof.
  induction 1 as [|p rest Hp _ IH]; cbn [last_labelled]; [discriminate|].
  destruct (last_labelled lbl rest) as [h'|]; [exact IH|].
  destruct (has_label lbl p); [|discriminate].
  intros E. injection E as <-. exact Hp.
Qed.

(** In the model, where indexing is the only thing that can fail, a
    frame raises in two cases: a visited hand without classification, or
    a last Left hand of 1 to 20 keypoints. *)
Lemma process_hands_raise_cases self results :
  process_hands self results = Raise IndexError
  <-> Exists (fun p => label_of p = None) (hand_pairs results)
      \/ exists h : list (Landmark T),
           last_labelled "Left" (hand_pairs results) = Some h
           /\ 1 <= List.length h < 21.
Proof.
  destruct (hands_reported results) eqn:E.
  - rewrite (process_hands_reported _ _ E). unfold detected_hands.
    destruct (labelled_or_not (hand_pairs results)) as [Hall|Hex].
    + rewrite (scan_hands_last _ _ Hall).
      set (l := last_labelled "Left" (hand_pairs results)).
      set (r := last_labelled "Right" (hand_pairs results)).
      replace (match l with Some h => Some h | None => None end) with l
        by now destruct l.
      replace (match r with Some h => Some h | None => None end) with r
        by now destruct r.
      cbn [bind fst snd]. split.
      * intros H. right.
        destruct (control_scheme self l r) as [self1|e] eqn:Ec;
          [discriminate H|].
        rewrite (exn_is_index_error e) in Ec.
        apply control_scheme_raise in Ec. destruct Ec as [Ht Hlt].
        destruct (truthy_opt_true _ Ht) as (w & rest & El).
        exists (w :: rest). split; [exact El|].
        rewrite El in Hlt. cbn [seq_of] in Hlt. cbn [List.length] in *. lia.
      * intros [Hex | (h & El & Hlen)].
        -- exfalso. apply Exists_exists in Hex. destruct Hex as (p & Hin & Hp).
           rewrite Forall_forall in Hall. exact (Hall p Hin Hp).
        -- assert (Ec : control_scheme self l r = Raise IndexError).
           { apply control_scheme_raise. rewrite El. cbn [seq_of truthy_opt].
             split; [apply truthy_length|]; lia. }
           now rewrite Ec.
    + rewrite (scan_hands_raise _ _ Hex). cbn [bind]. tauto.
  - rewrite (process_hands_not_reported _ _ E),
      (hand_pairs_not_reported _ E).
    split; [discriminate|].
    intros [Hex | (h & El & _)]; [inversion Hex|discriminate El].
Qed.

End FrameFaults.

(** X11.  A frame whose visited hands all have at least 21 keypoints
    raises [IndexError] exactly when one of them carries no
    classification (the [handedness.classification[0]] of line 133); a
    frame without hands raises none.  This holds in every number model. *)
Theorem process_hands_raises_exactly (T : Type) (num : PyNum T)
  (self : ARCubeController T) (results : SolutionOutputs T) :
  Forall (fun p => 21 <= List.length (landmark (fst p))) (hand_pairs results) ->
  (process_hands self results = Raise IndexError
   <-> Exists (fun p => label_of p = None) (hand_pairs results)).
Proof.
  intros Hlen. split.
  - intros H. apply process_hands_raise_cases in H.
    destruct H as [Hex | (h & El & Hh)]; [exact Hex|].
    pose proof (last_labelled_at_least _ Hlen El). lia.
  - intros Hex. apply process_hands_raise_cases. now left.
Qed.

(** A hand of 21 keypoints reported without classification, on
    binary64. *)
Lemma process_hands_raises_exactly_witness :
  process_hands (init (T := float))
    {| multi_hand_landmarks :=
         Some [ {| landmark := hand_of 21 (point 50 50 100) (point 50 25 100) |} ];
       multi_handedness := Some [ {| classification := [] |} ] |}
  = Raise IndexError.
Proof.
  apply (proj2 (@process_hands_raises_exactly float _ init
    {| multi_hand_landmarks :=
         Some [ {| landmark := hand_of 21 (point 50 50 100) (point 50 25 100) |} ];
       multi_handedness := Some [ {| classification := [] |} ] |}
    ltac:(repeat constructor))).
  apply Exists_cons_hd. reflexivity.
Defined.

(** ** The two channels *)

Section Channels.

Context {T : Type} {num : PyNum T}.
Implicit Types (self : ARCubeController T) (results : SolutionOutputs T).
Implicit Types (l r : option (list (Landmark T))).

Lemma process_hands_detected self results (self' : ARCubeController T) l r :
  detected_hands results = Ok (l, r) ->
  process_hands self results = Ok self' ->
  (hands_reported results = false /\ l = None /\ r = None
   /\ self' = apply_smoothing (with_roles None None self))
  \/ exists self1, scheme_outcome self l r self1
                   /\ self' = apply_smoothing self1.
Proof.
  intros Hd Hp.
  destruct (process_hands_ok _ _ Hp)
    as (l' & r' & Hd' & [(E & El & Er & Hs) | (_ & self1 & Ho & Hs)]);
    rewrite Hd in Hd'; injection Hd' as <- <-.
  - left. auto.
  - right. exists self1. auto.
Qed.

Lemma process_hands_freeze_scale self results (self' : ARCubeController T) l r :
  detected_hands results = Ok (l, r) ->
  truthy_opt l = false ->
  process_hands self results = Ok self' ->
  target_scale self' = target_scale self.
Proof.
  intros Hd Hl Hp.
  destruct (process_hands_detected _ _ Hd Hp)
    as [(_ & _ & _ & ->) | (self1 & Ho & ->)]; [reflexivity|].
  apply (scheme_outcome_left_absent Ho). now left.
Qed.

Lemma process_hands_freeze_rotation self results (self' : ARCubeController T)
  l r :
  detected_hands results = Ok (l, r) ->
  truthy_opt r = false ->
  process_hands self results = Ok self' ->
  target_rotation_x self' = target_rotation_x self
  /\ target_rotation_y self' = target_rotation_y self.
Proof.
  intros Hd Hr Hp.
  destruct (process_hands_detected _ _ Hd Hp)
    as [(_ & _ & _ & ->) | (self1 & Ho & ->)]; [split; reflexivity|].
  apply (scheme_outcome_right_absent Ho). now left.
Qed.

(** The scale target after a frame is a function of the state before
    and of the Left hand kept. *)
Lemma target_scale_of_left self (r1 r2 : SolutionOutputs T)
  (s1 s2 : ARCubeController T) l ra rb :
  detected_hands r1 = Ok (l, ra) -> detected_hands r2 = Ok (l, rb) ->
  process_hands self r1 = Ok s1 -> process_hands self r2 = Ok s2 ->
  target_scale s1 = target_scale s2.
Proof.
  intros Hd1 Hd2 Hp1 Hp2. destruct (truthy_opt l) eqn:El.
  - destruct (process_hands_scale _ _ Hd1 El Hp1) as (o1 & Hc1 & _ & ->).
    destruct (process_hands_scale _ _ Hd2 El Hp2) as (o2 & Hc2 & _ & ->).
    rewrite Hc1 in Hc2. now injection Hc2 as <-.
  - rewrite (process_hands_freeze_scale _ _ Hd1 El Hp1).
    now rewrite (process_hands_freeze_scale _ _ Hd2 El Hp2).
Qed.

Lemma target_rotation_of_right self (r1 r2 : SolutionOutputs T)
  (s1 s2 : ARCubeController T) la lb r :
  detected_hands r1 = Ok (la, r) -> detected_hands r2 = Ok (lb, r) ->
  process_hands self r1 = Ok s1 -> process_hands self r2 = Ok s2 ->
  target_rotation_x s1 = target_rotation_x s2
  /\ target_rotation_y s1 = target_rotation_y s2.
Proof.
  intros Hd1 Hd2 Hp1 Hp2. destruct (truthy_opt r) eqn:Er.
  - destruct (truthy_opt_true _ Er) as (w & rest & ->).
    destruct (process_hands_rotation _ _ Hd1 Hp1) as (_ & -> & ->).
    destruct (process_hands_rotation _ _ Hd2 Hp2) as (_ & -> & ->).
    split; reflexivity.
  - destruct (process_hands_freeze_rotation _ _ Hd1 Er Hp1) as [-> ->].
    destruct (process_hands_freeze_rotation _ _ Hd2 Er Hp2) as [-> ->].
    split; reflexivity.
Qed.

End Channels.

(** X12.  Size and rotation are separate channels.  From the same
    state, two frames that complete and in which the loop kept the same
    Left hand give the same [scale] and [target_scale], whatever their
    Right hands; and two frames in which it kept the same Right hand give
    the same [rotation_x], [rotation_y] and rotation targets, whatever
    their Left hands.  This holds in every number model. *)
Theorem size_and_rotation_independent (T : Type) (num : PyNum T)
  (self : ARCubeController T) (results1 results2 : SolutionOutputs T)
  (self1 self2 : ARCubeController T)
  (left1 left2 right1 right2 : option (list (Landmark T))) :
  detected_hands results1 = Ok (left1, right1) ->
  detected_hands results2 = Ok (left2, right2) ->
  process_hands self results1 = Ok self1 ->
  process_hands self results2 = Ok self2 ->
  (left1 = left2 ->
   target_scale self1 = target_scale self2 /\ scale self1 = scale self2)
  /\ (right1 = right2 ->
      target_rotation_x self1 = target_rotation_x self2
      /\ target_rotation_y self1 = target_rotation_y self2
      /\ rotation_x self1 = rotation_x self2
      /\ rotation_y self1 = rotation_y self2).
Proof.
  intros Hd1 Hd2 Hp1 Hp2. split.
  - intros <-.
    pose proof (target_scale_of_left _ _ _ Hd1 Hd2 Hp1 Hp2) as Ht.
    split; [exact Ht|].
    pose proof (process_hands_smooths Scale _ _ Hp1) as H1.
    pose proof (process_hands_smooths Scale _ _ Hp2) as H2.
    cbn [current target] in H1, H2. now rewrite H1, H2, Ht.
  - intros <-.
    destruct (target_rotation_of_right _ _ _ Hd1 Hd2 Hp1 Hp2) as [Hx Hy].
    split; [exact Hx|]. split; [exact Hy|].
    pose proof (process_hands_smooths RotationX _ _ Hp1) as H1.
    pose proof (process_hands_smooths RotationX _ _ Hp2) as H2.
    pose proof (process_hands_smooths RotationY _ _ Hp1) as H3.
    pose proof (process_hands_smooths RotationY _ _ Hp2) as H4.
    cbn [current target] in H1, H2, H3, H4.
    now rewrite H1, H2, H3, H4, Hx, Hy.
Qed.

(** The same Left hand with two different Right hands, on binary64. *)
Lemma size_and_rotation_independent_witness :
  exists self1 self2 : ARCubeController float,
    process_hands init
      (frame_of [(hand_of 21 (point 50 50 100) (point 50 25 100), "Left"%string);
                 (hand_of 21 (point 75 50 100) (point 75 25 100), "Right"%string)])
    = Ok self1
    /\ process_hands init
         (frame_of [(hand_of 21 (point 50 50 100) (point 50 25 100), "Left"%string);
                    (hand_of 21 (point 10 90 100) (point 10 80 100), "Right"%string)])
       = Ok self2
    /\ scale self1 = scale self2.
Proof.
  destruct (process_hands (T := float) init
      (frame_of [(hand_of 21 (point 50 50 100) (point 50 25 100), "Left"%string);
                 (hand_of 21 (point 75 50 100) (point 75 25 100), "Right"%string)]))
    as [self1|e1] eqn:E1; [|vm_compute in E1; discriminate E1].
  destruct (process_hands (T := float) init
      (frame_of [(hand_of 21 (point 50 50 100) (point 50 25 100), "Left"%string);
                 (hand_of 21 (point 10 90 100) (point 10 80 100), "Right"%string)]))
    as [self2|e2] eqn:E2; [|vm_compute in E2; discriminate E2].
  exists self1, self2. split; [reflexivity|]. split; [reflexivity|].
  apply (proj1 (@size_and_rotation_independent float _ init
      (frame_of [(hand_of 21 (point 50 50 100) (point 50 25 100), "Left"%string);
                 (hand_of 21 (point 75 50 100) (point 75 25 100), "Right"%string)])
      (frame_of [(hand_of 21 (point 50 50 100) (point 50 25 100), "Left"%string);
                 (hand_of 21 (point 10 90 100) (point 10 80 100), "Right"%string)])
                  self1 self2
                  (Some (hand_of 21 (point 50 50 100) (point 50 25 100)))
                  (Some (hand_of 21 (point 50 50 100) (point 50 25 100)))
                  (Some (hand_of 21 (point 75 50 100) (point 75 25 100)))
                  (Some (hand_of 21 (point 10 90 100) (point 10 80 100)))
                  eq_refl eq_refl E1 E2) eq_refl).
Defined.

(** ** Rotation within range, on the reals *)

Section RotationRange.

Local Open Scope R_scope.
Implicit Types (self : ARCubeController R) (results : SolutionOutputs R).

Lemma smooth_value_within (c t f lo hi : R) :
  0 < f < 1 -> lo <= c <= hi -> lo <= t <= hi ->
  lo <= smooth_value c t f <= hi.
Proof.
  intros Hf Hc Ht. pose proof (smooth_value_between c t Hf) as Hb.
  unfold Rmin, Rmax in Hb. destruct (Rle_dec c t); lra.
Qed.

(** One frame keeps the rotation within range when the wrist is inside
    the image. *)
Lemma process_hands_rotation_in_range self results (self' : ARCubeController R) :
  0 < smooth_factor self < 1 ->
  rotation_x_sensitivity self = 180 ->
  rotation_y_sensitivity self = 360 ->
  wrist_in_frame results ->
  rotation_in_range self ->
  process_hands self results = Ok self' ->
  rotation_in_range self'.
Proof.
  intros Hf Hsx Hsy Hw (Hx & Htx & Hy & Hty) Hp.
  assert (Htgt : (- 90 <= target_rotation_x self' <= 90)
                 /\ (- 180 <= target_rotation_y self' <= 180)).
  { destruct (process_hands_ok _ _ Hp) as (l & r & Hd & _).
    destruct (truthy_opt r) eqn:Er.
    - destruct (truthy_opt_true _ Er) as (w & rest & ->).
      destruct (Hw _ _ _ Hd) as [Hwx Hwy].
      destruct (process_hands_rotation _ _ Hd Hp) as (_ & -> & ->).
      rewrite Hsx, Hsy, !lit_R. cbn [nsub nmul PyNum_R]. split; lra.
    - destruct (process_hands_freeze_rotation _ _ Hd Er Hp) as [-> ->].
      split; assumption. }
  destruct Htgt as [Htx' Hty'].
  pose proof (process_hands_smooths RotationX _ _ Hp) as H1.
  pose proof (process_hands_smooths RotationY _ _ Hp) as H2.
  cbn [current target] in H1, H2.
  unfold rotation_in_range. rewrite H1, H2.
  split; [now apply smooth_value_within|]. split; [exact Htx'|].
  split; [now apply smooth_value_within|exact Hty'].
Qed.

Lemma run_rotation_in_range (frames : list (SolutionOutputs R)) :
  forall self (self' : ARCubeController R),
  smooth_factor self = 15 / 100 ->
  rotation_x_sensitivity self = 180 ->
  rotation_y_sensitivity self = 360 ->
  Forall wrist_in_frame frames ->
  rotation_in_range self ->
  run self frames = Ok self' ->
  rotation_in_range self'.
Proof.
  induction frames as [|results rest IH];
    intros self self' Hf Hsx Hsy Hall Hin Hrun.
  - cbn [run] in Hrun. now injection Hrun as <-.
  - inversion Hall as [|r rs Hw Hrest]; subst.
    cbn [run] in Hrun. apply bind_ok in Hrun.
    destruct Hrun as (self1 & Hp & Hrun).
    destruct (process_hands_config _ _ Hp) as (Hf1 & _ & _ & Hsx1 & Hsy1).
    apply (IH self1 self'); try congruence; try assumption.
    apply (process_hands_rotation_in_range (self := self) (results := results));
      try assumption. lra.
Qed.

End RotationRange.

(** X13.  As long as the wrist of the rotation hand stays inside the
    image (normalized coordinates between 0 and 1), any run of frames from
    the initial state keeps the pitch [rotation_x] and its target within
    -90 and 90 degrees, and the yaw [rotation_y] and its target within
    -180 and 180 degrees.  Arithmetic is exact (real numbers). *)
Theorem rotation_stays_in_range (frames : list (SolutionOutputs R))
  (self' : ARCubeController R) :
  Forall wrist_in_frame frames ->
  run init frames = Ok self' ->
  (- 90 <= rotation_x self' <= 90)%R
  /\ (- 90 <= target_rotation_x self' <= 90)%R
  /\ (- 180 <= rotation_y self' <= 180)%R
  /\ (- 180 <= target_rotation_y self' <= 180)%R.
Proof.
  intros Hall Hrun.
  apply (run_rotation_in_range (self := init) (frames := frames));
    try assumption; try reflexivity.
  unfold rotation_in_range.
  cbn [init rotation_x rotation_y target_rotation_x target_rotation_y
       nofZ PyNum_R].
  lra.
Qed.

(** One frame with a Right hand whose wrist is at (0.75, 0.5), from the
    initial state. *)
Lemma rotation_stays_in_range_witness :
  exists self' : ARCubeController R,
    run init
      [frame_of [(hand_of 21 (point 75 50 100) (point 75 25 100), "Right"%string)]]
    = Ok self'
    /\ (- 180 <= rotation_y self' <= 180)%R.
Proof.
  eexists. split.
  - cbn [run hand_of]. rewrite process_single_right. reflexivity.
  - refine (proj1 (proj2 (proj2 (@rotation_stays_in_range
      [frame_of [(hand_of 21 (point 75 50 100) (point 75 25 100),
                  "Right"%string)]] _ _ _)))).
    + constructor; [|constructor].
      intros l w rest Hd. injection Hd as _ <- _.
      cbn [point x y]. rewrite !lit_R. lra.
    + cbn [run hand_of]. rewrite process_single_right. reflexivity.
Defined.

(** ** What the extractors read *)

Section Reads.

Context {T : Type} {num : PyNum T}.
Implicit Types (self : ARCubeController T) (results : SolutionOutputs T).
Implicit Types (h : list (Landmark T)) (l r : option (list (Landmark T))).

Lemma getitem_nth_error (A : Type) (s1 s2 : list A) (i : nat) :
  nth_error s1 i = nth_error s2 i -> getitem s1 i = getitem s2 i.
Proof. unfold getitem. now intros ->. Qed.

Lemma calculate_palm_openness_reads h1 h2 :
  Forall (fun i => nth_error h1 i = nth_error h2 i) [0; 4; 8; 12; 16; 20] ->
  calculate_palm_openness h1 = calculate_palm_openness h2.
Proof.
  intros H. unfold calculate_palm_openness.
  repeat (let E := fresh "E" in
          inversion H as [|? ? E H']; subst; clear H; rename H' into H;
          rewrite (getitem_nth_error _ _ _ E)).
  reflexivity.
Qed.

Lemma scheme_outcome_same_wrist self l (w : Landmark T)
  (rest1 rest2 : list (Landmark T)) (s1 s2 : ARCubeController T) :
  scheme_outcome self l (Some (w :: rest1)) s1 ->
  scheme_outcome self l (Some (w :: rest2)) s2 ->
  s1 = s2.
Proof.
  intros [o1 w1 r1 Hl1 Hr1 Ho1 | o1 Hl1 Hr1 Ho1 | w1 r1 Hl1 Hr1 | Hl1 Hr1];
    try discriminate Hr1;
    intros [o2 w2 r2 Hl2 Hr2 Ho2 | o2 Hl2 Hr2 Ho2 | w2 r2 Hl2 Hr2 | Hl2 Hr2];
    try discriminate Hr2; try congruence.
Qed.

End Reads.

(** X14.  Of a hand, the size channel reads keypoints 0, 4, 8, 12, 16
    and 20 and nothing else: two hands that agree on these six (present or
    missing alike) get the same result from [calculate_palm_openness],
    value or exception.  The rotation channel reads the wrist only: from
    the same state and with the same Left hand, two frames whose Right
    hands share keypoint 0 end in the same state.  This holds in every
    number model. *)
Theorem only_tips_and_wrist_are_read (T : Type) (num : PyNum T) :
  (forall h1 h2 : list (Landmark T),
     Forall (fun i => nth_error h1 i = nth_error h2 i) [0; 4; 8; 12; 16; 20] ->
     calculate_palm_openness h1 = calculate_palm_openness h2)
  /\ (forall (self self1 self2 : ARCubeController T)
             (results1 results2 : SolutionOutputs T)
             (left_hand : option (list (Landmark T))) (wrist : Landmark T)
             (rest1 rest2 : list (Landmark T)),
        detected_hands results1 = Ok (left_hand, Some (wrist :: rest1)) ->
        detected_hands results2 = Ok (left_hand, Some (wrist :: rest2)) ->
        process_hands self results1 = Ok self1 ->
        process_hands self results2 = Ok self2 ->
        self1 = self2).
Proof.
  split; [exact calculate_palm_openness_reads|].
  intros self self1 self2 results1 results2 l w rest1 rest2 Hd1 Hd2 Hp1 Hp2.
  destruct (process_hands_detected _ _ Hd1 Hp1)
    as [(_ & _ & Hr & _) | (t1 & Ho1 & ->)]; [discriminate Hr|].
  destruct (process_hands_detected _ _ Hd2 Hp2)
    as [(_ & _ & Hr & _) | (t2 & Ho2 & ->)]; [discriminate Hr|].
  now rewrite (scheme_outcome_same_wrist Ho1 Ho2).
Qed.

(** Two hands that differ in keypoint 1 only, on binary64. *)
Lemma only_tips_and_wrist_are_read_witness :
  calculate_palm_openness
    (point 50 50 100 :: point 10 10 100 :: repeat (point 50 25 100) 19
     : list (Landmark float))
  = calculate_palm_openness
      (point 50 50 100 :: point 90 90 100 :: repeat (point 50 25 100) 19).
Proof.
  apply (proj1 (@only_tips_and_wrist_are_read float _)).
  repeat constructor.
Defined.

(** ** Openness does not depend on where the hand is *)

Section Invariance.

Local Open Scope R_scope.
Implicit Types (hand : list (Landmark R)).

Lemma keypoint_map (f : Landmark R -> Landmark R) hand (i : nat) :
  (i < List.length hand)%nat ->
  keypoint (map f hand) i = f (keypoint hand i).
Proof.
  intros Hi. unfold keypoint.
  rewrite (nth_indep (map f hand) origin (f origin))
    by (rewrite length_map; exact Hi).
  apply map_nth.
Qed.

(** A map on landmarks that keeps distances keeps the openness. *)
Lemma calculate_palm_openness_isometry (f : Landmark R -> Landmark R) hand :
  (forall p q, euclidean_distance (f p) (f q) = euclidean_distance p q) ->
  calculate_palm_openness (map f hand) = calculate_palm_openness hand.
Proof.
  intros Hf.
  destruct (Nat.lt_ge_cases (List.length hand) 21) as [Hlt|Hge].
  - rewrite !calculate_palm_openness_short;
      [reflexivity | exact Hlt | rewrite length_map; exact Hlt].
  - rewrite !calculate_palm_openness_R
      by (try rewrite length_map; exact Hge).
    unfold avg_fingertip_distance.
    rewrite !keypoint_map by lia. now rewrite !Hf.
Qed.

Lemma translate_isometry (a b : R) (p q : Landmark R) :
  euclidean_distance (translate a b p) (translate a b q)
  = euclidean_distance p q.
Proof.
  unfold euclidean_distance, translate. cbn [x y]. f_equal.
  unfold Rsqr. ring.
Qed.

Lemma mirror_isometry (p q : Landmark R) :
  euclidean_distance (mirror p) (mirror q) = euclidean_distance p q.
Proof.
  unfold euclidean_distance, mirror. cbn [x y]. f_equal.
  unfold Rsqr. ring.
Qed.

End Invariance.

(** X15.  The palm openness of a hand does not depend on where the hand
    is in the image, nor on the mirror flip [main] applies to each frame:
    moving every keypoint by the same offset, or mirroring every keypoint
    left to right, leaves the result of [calculate_palm_openness]
    unchanged, value or exception.  Arithmetic is exact (real numbers). *)
Theorem palm_openness_position_free (hand : list (Landmark R)) (a b : R) :
  calculate_palm_openness (map (translate a b) hand)
  = calculate_palm_openness hand
  /\ calculate_palm_openness (map mirror hand) = calculate_palm_openness hand.
Proof.
  split.
  - apply calculate_palm_openness_isometry. apply translate_isometry.
  - apply calculate_palm_openness_isometry. apply mirror_isometry.
Qed.

(** ** The overlay on binary64 *)

(** [int()] cuts toward zero and refuses infinities and NaN. *)
Example int_binary64 :
  float_trunc 49.99999999999999%float = Returns 49%Z
  /\ float_trunc (-3.7)%float = Returns (-3)%Z
  /\ float_trunc (-0.5)%float = Returns 0%Z
  /\ float_trunc infinity = Throws OverflowError
  /\ float_trunc nan = Throws ValueError.
Proof. repeat split; vm_compute; reflexivity. Qed.

(** With rounding, the hand whose fingertips lie 0.25 above the wrist
    reads 49 per cent: the ratio comes out just below one half and
    [int()] cuts it down. *)
Example overlay_percent_binary64 :
  (self' <~ lift (process_hands (T := float) init
       (frame_of [(hand_of 21 (point 50 50 100) (point 50 25 100),
                   "Left"%string)])) ;;
   openness_percent self')
  = Returns 49%Z.
Proof. vm_compute. reflexivity. Qed.
